(** * MediaCrawler / eastmoney: acquisition-to-retention pipeline

    A shallow embedding of the eastmoney report pipeline
    ([media_platform/eastmoney], [store/eastmoney], [feishu/eastmoney_bot.py],
    [timed_listener.py], [main_eastmoney.py], [scheduler/eastmoney_scheduler.py])
    and the properties of it that the specification states.

    Python values are modelled as the code has them:
    - a [str] is the list of its Unicode code points;
    - a [dict] with string keys is a [gmap string pyval];
    - a directory is a [gmap] from file names to file contents;
    - the sqlite table is the list of its rows, in insertion order;
    - an exception is the [inl] branch of a sum. *)

From Stdlib Require Import ZArith NArith Lia List Ascii String DecimalString.
From stdpp Require Import base option list sorting gmap strings fin_maps.

Local Open Scope N_scope.

(** ** Python strings *)

Module Py.

(** A [str] is a sequence of code points. *)
Abbreviation str := (list N).

(** An ASCII literal of the source, as code points. *)
Definition lit (s : string) : str :=
  N_of_ascii <$> list_ascii_of_string s.

(** [str.isspace] for one character: the code points CPython's
    [_PyUnicode_IsWhitespace] accepts. *)
Definition isspace (c : N) : bool :=
  ((9 <=? c) && (c <=? 13)) || ((28 <=? c) && (c <=? 32))
  || (c =? 133) || (c =? 160) || (c =? 5760)
  || ((8192 <=? c) && (c <=? 8202))
  || (c =? 8232) || (c =? 8233) || (c =? 8239) || (c =? 8287) || (c =? 12288).

Fixpoint lstrip (s : str) : str :=
  match s with
  | c :: s' => if isspace c then lstrip s' else s
  | [] => []
  end.

Definition rstrip (s : str) : str := reverse (lstrip (reverse s)).

(** [s.strip()] *)
Definition strip (s : str) : str := rstrip (lstrip s).

Definition is_ascii (c : N) : bool := c <? 128.

Definition ascii_lower (c : N) : N :=
  if (65 <=? c) && (c <=? 90) then c + 32 else c.

Definition ascii_isdigit (c : N) : bool := (48 <=? c) && (c <=? 57).

(** The parts of [str.lower], [str.isdigit], [int] and the regular
    expression class [\d] that depend on the Unicode character database of
    the interpreter.  On ASCII input the functions below do not consult
    them. *)
Class UnicodeData := {
  (** [s.lower()] for an [s] holding a non-ASCII character *)
  unicode_lower : str → str;
  (** [c.isdigit()] for a non-ASCII [c] (Numeric_Type Digit or Decimal) *)
  unicode_isdigit : N → bool;
  (** the decimal value of a non-ASCII [c] of category Nd, as [int] and
      [\d] see it *)
  unicode_decimal : N → option N;
}.

Section Builtins.
Context `{UnicodeData}.

(** [s.lower()] *)
Definition lower (s : str) : str :=
  if forallb is_ascii s then ascii_lower <$> s else unicode_lower s.

Definition char_isdigit (c : N) : bool :=
  if is_ascii c then ascii_isdigit c else unicode_isdigit c.

(** [s.isdigit()]: every character is a digit and there is at least one. *)
Definition isdigit (s : str) : bool :=
  match s with
  | [] => false
  | _ => forallb char_isdigit s
  end.

Definition char_decimal (c : N) : option N :=
  if is_ascii c then (if ascii_isdigit c then Some (c - 48) else None)
  else unicode_decimal c.

Fixpoint int_digits (acc : Z) (s : str) : option Z :=
  match s with
  | [] => Some acc
  | c :: s' =>
      match char_decimal c with
      | Some d => int_digits (10 * acc + Z.of_N d)%Z s'
      | None => None
      end
  end.

(** [sys.get_int_max_str_digits()]: the number of digits [int] converts,
    by default. *)
Definition max_str_digits : nat := 4300.

(** [int(s)] for an [s] that [isdigit] accepted: the value, or [None]
    for [ValueError].  A string of more digits than the limit is rejected,
    leading zeros counted. *)
Definition int (s : str) : option Z :=
  match s with
  | [] => None
  | _ => if (max_str_digits <? length s)%nat then None else int_digits 0 s
  end.
End Builtins.

(** [s.startswith(p)] *)
Fixpoint startswith (p s : str) : bool :=
  match p, s with
  | [], _ => true
  | a :: p', b :: s' => (a =? b) && startswith p' s'
  | _ :: _, [] => false
  end.

(** [s.endswith(p)] *)
Definition endswith (p s : str) : bool :=
  startswith (reverse p) (reverse s).

(** [s.replace(old, new)] for a non-empty [old]: occurrences are found
    from the left and do not overlap.  [skip] counts the characters of the
    occurrence being consumed. *)
Fixpoint replace_from (old new : str) (skip : nat) (s : str) : str :=
  match s with
  | [] => []
  | c :: s' =>
      match skip with
      | S k => replace_from old new k s'
      | O =>
          if startswith old s
          then new ++ replace_from old new (length old - 1) s'
          else c :: replace_from old new O s'
      end
  end.

Definition replace (old new s : str) : str := replace_from old new 0 s.

(** [s.split(sep)] for a one-character [sep]. *)
Fixpoint split (sep : N) (s : str) : list str :=
  match s with
  | [] => [[]]
  | c :: s' =>
      if c =? sep then [] :: split sep s'
      else match split sep s' with
           | p :: ps => (c :: p) :: ps
           | [] => [[c]]
           end
  end.

(** [s.find(c)] for a one-character [c]: the first index, [None] for -1. *)
Fixpoint find (c : N) (s : str) : option nat :=
  match s with
  | [] => None
  | x :: s' => if x =? c then Some O else S <$> find c s'
  end.

(** ASCII-only interpreter tables, for running the model on ASCII input. *)
Definition ascii_tables : UnicodeData :=
  {| unicode_lower := λ s, s;
     unicode_isdigit := λ _, false;
     unicode_decimal := λ _, None |}.

End Py.

Import Py.

(** ** feishu/eastmoney_bot.py *)

Module EastmoneyFeishuBot.

Definition keep_all_cn : str := [20840; 37096; 20445; 30041].    (* 全部保留 *)
Definition delete_all_cn : str := [20840; 37096; 21024; 38500].  (* 全部删除 *)
Definition cancel_cn : str := [21462; 28040].                    (* 取消 *)
Definition fullwidth_comma : str := [65292].                     (* ， *)
Definition comma : N := 44.

Definition streq (a b : str) : bool := bool_decide (a = b).

Section Selection.
Context `{UnicodeData}.

(** The body of the [for part in parts] loop: [Some indices'] when the
    iteration completes, [None] when [int] raises. *)
Definition parse_part (n : nat) (indices : list Z) (part : str)
  : option (list Z) :=
  let part := strip part in
  if isdigit part then
    idx ← int part;
    let idx := (idx - 1)%Z in
    if ((0 <=? idx) && (idx <? Z.of_nat n))%Z
    then Some (indices ++ [idx])
    else Some indices
  else Some indices.

Fixpoint parse_parts (n : nat) (indices : list Z) (parts : list str)
  : option (list Z) :=
  match parts with
  | [] => Some indices
  | part :: parts' =>
      indices' ← parse_part n indices part;
      parse_parts n indices' parts'
  end.

(** [[all_infocodes[i] for i in indices]]; [None] is [IndexError]. *)
Definition index_all (all_infocodes : list str) (indices : list Z)
  : option (list str) :=
  mapM (λ i : Z, if (i <? 0)%Z
                 then all_infocodes !! (Z.to_nat (Z.of_nat (length all_infocodes) + i))
                 else all_infocodes !! Z.to_nat i) indices.

(** The [try] block of [process_user_selection]. *)
Definition parse_indices (selection_text : str) (all_infocodes : list str)
  : option (list str) :=
  let parts := split comma (replace fullwidth_comma [comma] selection_text) in
  indices ← parse_parts (length all_infocodes) [] parts;
  index_all all_infocodes indices.

Definition process_user_selection (selection_text : str)
    (all_infocodes : list str) : list str :=
  let selection_text := lower (strip selection_text) in
  if streq selection_text keep_all_cn || streq selection_text (lit "all")
  then all_infocodes
  else if streq selection_text delete_all_cn
          || streq selection_text (lit "all delete")
          || streq selection_text (lit "delete all")
  then []
  else if streq selection_text cancel_cn || streq selection_text (lit "cancel")
  then []
  else match parse_indices selection_text all_infocodes with
       | Some selected_infocodes => selected_infocodes
       | None => []   (* except Exception: return [] *)
       end.
End Selection.

(** [send_and_notify_reports]: [send_ok] is what [bot.send_report_list]
    returned.  [None] is Python's [None]. *)
Definition send_and_notify_reports (send_ok : bool) : option (list str) :=
  if negb send_ok then None else Some [].

End EastmoneyFeishuBot.

(** ** timed_listener.py *)

Module TimedFeishuListener.

Definition keep_all_short_cn : str := [20840; 37096].   (* 全部 *)

Inductive selection :=
  | SelAll                       (* "all" *)
  | SelDeleteAll                 (* "delete_all" *)
  | SelNumbers (l : list Z).     (* a list of ints *)

Section Parse.
Context `{UnicodeData}.

Definition is_decimal (c : N) : bool :=
  match char_decimal c with Some _ => true | None => false end.

(** [re.findall(r'\d+', text)]: the maximal runs of decimal digits, in
    order.  [cur] is the run being read, in reverse. *)
Fixpoint findall_digits (cur : str) (text : str) : list str :=
  match text with
  | [] => match cur with [] => [] | _ => [reverse cur] end
  | c :: text' =>
      if is_decimal c then findall_digits (c :: cur) text'
      else match cur with
           | [] => findall_digits [] text'
           | _ => reverse cur :: findall_digits [] text'
           end
  end.

(** [int(n)] on a run of decimal digits.  On a run longer than
    [max_str_digits] the source raises [ValueError]; the properties below
    that speak of the numbers bound the length of the reply. *)
Definition int_run (n : str) : Z := default 0%Z (int n).

Definition parse_user_selection (text : str) : option selection :=
  let text := lower (strip text) in
  if bool_decide (text ∈ [EastmoneyFeishuBot.keep_all_cn; lit "all"; keep_all_short_cn])
  then Some SelAll
  else if bool_decide (text ∈ [EastmoneyFeishuBot.delete_all_cn; lit "delete"; lit "delete all"])
  then Some SelDeleteAll
  else
    let numbers := findall_digits [] text in
    match numbers with
    | [] => None
    | _ => Some (SelNumbers (int_run <$> numbers))
    end.

(** The mapping of a parsed selection to infocodes inside
    [listen_and_process.process_and_notify]; [reports] are the infocodes
    of the offered reports. *)
Fixpoint select_numbers (reports : list str) (sel : list Z) : list str :=
  match sel with
  | [] => []
  | idx :: sel' =>
      if ((1 <=? idx) && (idx <=? Z.of_nat (length reports)))%Z
      then match reports !! Z.to_nat (idx - 1) with
           | Some r => r :: select_numbers reports sel'
           | None => select_numbers reports sel'
           end
      else select_numbers reports sel'
  end.

Definition selected_infocodes (reports : list str) (s : selection) : list str :=
  match s with
  | SelAll => reports
  | SelDeleteAll => []
  | SelNumbers l => select_numbers reports l
  end.
End Parse.

End TimedFeishuListener.


(** ** Python values, dictionaries and exceptions *)

Inductive pyval :=
  | PNone
  | PStr (s : str)
  | PInt (z : Z).

#[global] Instance pyval_eq_dec : EqDecision pyval.
Proof. solve_decision. Defined.

(** A [dict] whose keys are the string literals of the source. *)
Abbreviation pydict := (gmap string pyval).

Abbreviation bytes := (list N).

(** [bool(v)] *)
Definition truthy (v : pyval) : bool :=
  match v with
  | PNone => false
  | PStr s => match s with [] => false | _ => true end
  | PInt z => negb (z =? 0)%Z
  end.

(** [str(v)], as an f-string formats [v]. *)
Definition py_str (v : pyval) : str :=
  match v with
  | PNone => lit "None"
  | PStr s => s
  | PInt z => lit (NilZero.string_of_int (Z.to_int z))
  end.

(** [d.get(k, default)] *)
Definition get_or (d : pydict) (k : string) (dflt : pyval) : pyval :=
  default dflt (d !! k).

(** [d.get(k)] *)
Definition get (d : pydict) (k : string) : pyval := get_or d k PNone.

Inductive exn :=
  | FileExistsError
  | FileNotFoundError
  | PDFDownloadError (msg : str)
  | NameError
  | DataFetchError
  | RetryError
  | OtherError.

(** [except OSError] catches these. *)
Definition is_OSError (e : exn) : bool :=
  match e with
  | FileExistsError | FileNotFoundError => true
  | _ => false
  end.

(** ** config/eastmoney_config.py *)

Module Config.
Definition PDF_BASE_URL : str := lit "https://pdf.dfcfw.com/pdf".
Definition PAGE_SIZE : nat := 50.
Definition DEFAULT_DAYS : Z := 7.
Definition MAX_RETRIES : nat := 3.
Definition PDF_SAVE_DIR : str := lit "./data/eastmoney/pdf".
Definition DELETE_UNSELECTED : bool := true.
Definition SEND_LIST_TO_FEISHU : bool := true.
(* ".../com~apple~CloudDocs/家人共享/待选报告" *)
Definition TARGET_PDF_DIR : str :=
  lit "/Users/echochen/Library/Mobile Documents/com~apple~CloudDocs/"
  ++ [23478; 20154; 20849; 20139; 47; 24453; 36873; 25253; 21578].
End Config.

(** ** The file system

    The two directories of the pipeline, each a map from file name to
    content.  A file is identified by its directory and its name. *)

Module Os.

Record fs := Fs {
  save_dir : gmap str bytes;     (* PDF_SAVE_DIR, the holding directory *)
  target_dir : gmap str bytes;   (* TARGET_PDF_DIR *)
}.

(** [os.listdir(pdf_save_dir)]: the names, in the order of the map. *)
Definition listdir_save (f : fs) : list str := (map_to_list (save_dir f)).*1.

(** [os.rename(save/src, target/dst)].  On POSIX an existing destination
    file is replaced; elsewhere the call raises [FileExistsError]. *)
Definition rename (posix : bool) (src dst : str) (f : fs) : exn + fs :=
  match save_dir f !! src with
  | None => inl FileNotFoundError
  | Some content =>
      if negb posix && bool_decide (is_Some (target_dir f !! dst))
      then inl FileExistsError
      else inr (Fs (delete src (save_dir f)) (<[dst := content]> (target_dir f)))
  end.

(** [os.remove(target/name)] *)
Definition remove_target (name : str) (f : fs) : exn + fs :=
  match target_dir f !! name with
  | None => inl FileNotFoundError
  | Some _ => inr (Fs (save_dir f) (delete name (target_dir f)))
  end.

(** [os.remove(save/name)] *)
Definition remove_save (name : str) (f : fs) : exn + fs :=
  match save_dir f !! name with
  | None => inl FileNotFoundError
  | Some _ => inr (Fs (delete name (save_dir f)) (target_dir f))
  end.

(** [open(save/name, "wb").write(content)] *)
Definition write_save (name : str) (content : bytes) (f : fs) : fs :=
  Fs (<[name := content]> (save_dir f)) (target_dir f).

(** A name that [os.path.join] and [open] take for a file of the directory
    itself: it holds no path separator and no NUL.  On another name [open]
    raises, or writes outside the directory. *)
Definition file_name (name : str) : Prop := (47 ∉ name) ∧ (0 ∉ name).

#[global] Instance file_name_dec (name : str) : Decision (file_name name).
Proof. unfold file_name. apply _. Defined.

(** [os.path.join(a, b)] on POSIX. *)
Definition path_join (a b : str) : str :=
  if startswith (lit "/") b then b
  else match a with
       | [] => b
       | _ => if endswith (lit "/") a then a ++ b else a ++ lit "/" ++ b
       end.

End Os.

(** ** store/eastmoney/_store_impl.py: EastmoneyPdfStorage *)

Module EastmoneyPdfStorage.
Import Os.

Definition dot_pdf : str := lit ".pdf".

(** [store_pdf]: the saved path, and the file system after the write, for
    an identifier that gives a [file_name]. *)
Definition store_pdf (infocode : pyval) (pdf_content : bytes) (extension : str)
    (f : fs) : str * fs :=
  if negb (match pdf_content with [] => false | _ => true end) || negb (truthy infocode)
  then ([], f)
  else
    let name := py_str infocode ++ extension in
    (path_join Config.PDF_SAVE_DIR name, write_save name pdf_content f).

(** The state of the loop of [move_to_target]: the dict [result] and the
    file system. *)
Abbreviation move_state := (gmap str str * fs)%type.

(** One iteration of [for filename in all_files].  [Some e] is an
    exception that leaves the loop; the state is the one reached when it
    was raised. *)
Definition move_one (posix : bool) (infocodes : list str) (filename : str)
    (st : move_state) : option exn * move_state :=
  let '(result, f) := st in
  let infocode := replace dot_pdf [] filename in
  if bool_decide (infocode ∈ infocodes) then
    let target_name := infocode ++ dot_pdf in
    let target_path := path_join Config.TARGET_PDF_DIR target_name in
    match rename posix filename target_name f with
    | inr f' => (None, (<[infocode := target_path]> result, f'))
    | inl FileExistsError =>
        match remove_target target_name f with
        | inl e => (Some e, (result, f))
        | inr f1 =>
            match rename posix filename target_name f1 with
            | inl e => (Some e, (result, f1))
            | inr f2 => (None, (<[infocode := target_path]> result, f2))
            end
        end
    | inl e => (Some e, (result, f))
    end
  else
    match remove_save filename f with
    | inr f' => (None, (result, f'))
    | inl e => if is_OSError e then (None, (result, f)) else (Some e, (result, f))
    end.

Fixpoint move_all (posix : bool) (infocodes : list str) (all_files : list str)
    (st : move_state) : (exn + gmap str str) * fs :=
  match all_files with
  | [] => (inr st.1, st.2)
  | filename :: rest =>
      match move_one posix infocodes filename st with
      | (None, st') => move_all posix infocodes rest st'
      | (Some e, st') => (inl e, st'.2)
      end
  end.

(** [move_to_target(infocodes)] *)
Definition move_to_target (posix : bool) (infocodes : list str) (f : fs)
    : (exn + gmap str str) * fs :=
  let all_files := List.filter (endswith dot_pdf) (listdir_save f) in
  move_all posix infocodes all_files (∅, f).

End EastmoneyPdfStorage.

(** ** store/eastmoney/_store_impl.py: EastmoneySqliteStoreImplement

    A row of the [eastmoney_report] table is the dict of its columns; the
    table is the list of its rows.  [current_time] is what
    [int(get_current_timestamp())] returned. *)

Module EastmoneySqliteStore.

Abbreviation table := (list pydict).

Definition empty_str : pyval := PStr [].

(** [WHERE EastmoneyReport.infocode == infocode] *)
Definition matches (infocode : pyval) (row : pydict) : bool :=
  bool_decide (row !! "infocode"%string = Some infocode).

(** [report_is_exist] *)
Definition report_is_exist (db : table) (infocode : pyval) : bool :=
  existsb (matches infocode) db.

(** The row [report] that [add_report] builds. *)
Definition new_report (current_time : Z) (content_item : pydict) : pydict :=
  list_to_map
    [ ("infocode"%string, get content_item "infocode");
      ("report_title"%string, get_or content_item "report_title" empty_str);
      ("org_name"%string, get_or content_item "org_name" empty_str);
      ("analyst"%string, get_or content_item "analyst" empty_str);
      ("publish_date"%string, get_or content_item "publish_date" empty_str);
      ("industry"%string, get_or content_item "industry" empty_str);
      ("stock_code"%string, get_or content_item "stock_code" empty_str);
      ("rating"%string, get_or content_item "rating" empty_str);
      ("pdf_url"%string, get_or content_item "pdf_url" empty_str);
      ("pdf_path"%string, get_or content_item "pdf_path" empty_str);
      ("pdf_size"%string, get_or content_item "pdf_size" (PInt 0));
      ("pdf_pages"%string, get_or content_item "pdf_pages" (PInt 0));
      ("attach_type"%string, get_or content_item "attach_type" empty_str);
      ("download_status"%string,
         get_or content_item "download_status" (PStr (lit "pending")));
      ("error_message"%string, get_or content_item "error_message" empty_str);
      ("create_time"%string, PInt current_time);
      ("update_time"%string, PInt current_time) ].

(** [add_report]: [session.add(report)] *)
Definition add_report (current_time : Z) (content_item : pydict) (db : table)
    : table :=
  db ++ [new_report current_time content_item].

(** [if key in content_item: update_data[key] = content_item[key]] *)
Definition copy_if_present (content_item : pydict) (key : string)
    (update_data : pydict) : pydict :=
  match content_item !! key with
  | Some v => <[key := v]> update_data
  | None => update_data
  end.

(** [UPDATE ... WHERE infocode == infocode VALUES update_data] *)
Definition execute_update (infocode : pyval) (update_data : pydict) (db : table)
    : table :=
  (λ row : pydict, if matches infocode row then update_data ∪ row else row) <$> db.

(** The columns [update_report] writes when the item has them. *)
Definition optional_columns : list string :=
  ["pdf_path"; "download_status"; "error_message"; "pdf_size"; "pdf_pages"]%string.

(** The dict [update_data] that [update_report] builds. *)
Definition report_update_data (current_time : Z) (content_item : pydict) : pydict :=
  let update_data : pydict := {[ "update_time"%string := PInt current_time ]} in
  let update_data := copy_if_present content_item "pdf_path" update_data in
  let update_data := copy_if_present content_item "download_status" update_data in
  let update_data := copy_if_present content_item "error_message" update_data in
  let update_data := copy_if_present content_item "pdf_size" update_data in
  let update_data := copy_if_present content_item "pdf_pages" update_data in
  update_data.

(** [update_report] *)
Definition update_report (current_time : Z) (content_item : pydict) (db : table)
    : table :=
  execute_update (get content_item "infocode")
    (report_update_data current_time content_item) db.

(** [update_pdf_status] *)
Definition update_pdf_status (current_time : Z) (infocode : pyval) (status : str)
    (pdf_path error_message : str) (db : table) : table :=
  let update_data : pydict :=
    <["update_time"%string := PInt current_time]>
      {[ "download_status"%string := PStr status ]} in
  let update_data :=
    if truthy (PStr pdf_path) then <["pdf_path"%string := PStr pdf_path]> update_data
    else update_data in
  let update_data :=
    if truthy (PStr error_message)
    then <["error_message"%string := PStr error_message]> update_data
    else update_data in
  execute_update infocode update_data db.

(** [store_content] *)
Definition store_content (current_time : Z) (content_item : pydict) (db : table)
    : table :=
  let infocode := get content_item "infocode" in
  if negb (truthy infocode) then db
  else if report_is_exist db infocode then update_report current_time content_item db
  else add_report current_time content_item db.

(** The rows of one identifier. *)
Definition rows_of (infocode : pyval) (db : table) : list pydict :=
  List.filter (matches infocode) db.

Definition int_column (row : pydict) (key : string) : Z :=
  match row !! key with
  | Some (PInt z) => z
  | _ => 0%Z
  end.

(** [ORDER BY create_time DESC] *)
Definition newer_first (r1 r2 : pydict) : Prop :=
  (int_column r2 "create_time" ≤ int_column r1 "create_time")%Z.

#[global] Instance newer_first_dec r1 r2 : Decision (newer_first r1 r2).
Proof. unfold newer_first. apply _. Defined.

(** One step of the ordering: [row] goes behind the rows that are
    strictly newer, and before the others. *)
Fixpoint insert_newer_first (row : pydict) (sorted : list pydict) : list pydict :=
  match sorted with
  | [] => [row]
  | r :: rest =>
      if (int_column row "create_time" <? int_column r "create_time")%Z
      then r :: insert_newer_first row rest
      else row :: sorted
  end.

(** [ORDER BY create_time DESC] as SQLite answers it: rows with the same
    [create_time] stay in the order of the table. *)
Definition order_by_create_time_desc (rows : list pydict) : list pydict :=
  foldr insert_newer_first [] rows.

(** [WHERE create_time >= threshold_timestamp AND download_status ==
    "completed"] *)
Definition recent_and_completed (threshold_timestamp : Z) (row : pydict) : bool :=
  (threshold_timestamp <=? int_column row "create_time")%Z
  && bool_decide (row !! "download_status"%string = Some (PStr (lit "completed"))).


(** [get_new_reports_for_feishu]: the completed rows created since the
    threshold, newest first, as dicts.  [now] is [int(time.time())]. *)
Definition recent_completed (now days : Z) (db : table) : list pydict :=
  let threshold_timestamp := (now - days * 24 * 60 * 60)%Z in
  order_by_create_time_desc
    (List.filter (recent_and_completed threshold_timestamp) db).

Definition get_new_reports_for_feishu (now days : Z) (db : table) : list pydict :=
  (λ report : pydict,
     list_to_map
       [ ("infocode"%string, get report "infocode");
         ("title"%string, get report "report_title");
         ("org_name"%string, get report "org_name");
         ("publish_date"%string, get report "publish_date");
         ("pdf_pages"%string, get report "pdf_pages");
         ("pdf_path"%string, get report "pdf_path") ] : pydict)
  <$> recent_completed now days db.

End EastmoneySqliteStore.

(** ** The world outside the process *)

Inductive method := HEAD | GET.

(** What an httpx request comes back with.  The content type of a response
    is only logged by the code and is left out. *)
Inductive http_outcome :=
  | Response (status_code : Z) (content : bytes)
  | RequestError (msg : str).      (* httpx.RequestError, timeouts included *)

(** The mutable state: the sqlite table, the two directories, and a log of
    the HTTP requests sent to the attachment host and of the listing pages
    asked for.  [ticks] counts the readings of the clock. *)
Record world := World {
  db : list pydict;
  files : Os.fs;
  http_log : list (method * str);
  page_log : list nat;
  ticks : nat;
}.

(** The environment: how the attachment host answers the n-th request, what
    [client.fetch_report_list(page_no)] returns or raises, what the clock
    shows at its n-th reading, whether [bot.send_report_list(reports)]
    reports success, and the platform. *)
Record env := Env {
  http : nat → method → str → http_outcome;
  fetch_report_list : nat → exn + list pydict;
  clock : nat → Z;
  send_report_list : list pydict → bool;
  posix : bool;
}.

Definition set_db (d : list pydict) (w : world) : world :=
  World d (files w) (http_log w) (page_log w) (ticks w).
Definition set_files (f : Os.fs) (w : world) : world :=
  World (db w) f (http_log w) (page_log w) (ticks w).
Definition log_request (m : method) (url : str) (w : world) : world :=
  World (db w) (files w) (http_log w ++ [(m, url)]) (page_log w) (ticks w).
Definition log_page (page_no : nat) (w : world) : world :=
  World (db w) (files w) (http_log w) (page_log w ++ [page_no]) (ticks w).

(** [int(time.time())], [int(get_current_timestamp())] *)
Definition read_clock (e : env) (w : world) : Z * world :=
  (clock e (ticks w),
   World (db w) (files w) (http_log w) (page_log w) (S (ticks w))).

(** [await client.head(url)], [await client.get(url)] *)
Definition request (e : env) (m : method) (url : str) (w : world)
    : http_outcome * world :=
  (http e (length (http_log w)) m url, log_request m url w).

(** ** media_platform/eastmoney/client.py *)

Module EastmoneyClient.

Inductive jsonp_error :=
  | NoJsonStart        (* 无法找到JSON开始标记 *)
  | NoJsonEnd          (* 无法找到匹配的JSON结束标记 *)
  | JsonDecodeFailed.  (* JSON解析失败 *)

Definition lbrace : N := 123.
Definition rbrace : N := 125.

(** [s[a:b]] for [a <= b] *)
Definition slice (s : str) (a b : nat) : str := take (b - a) (drop a s).

(** The [for i in range(start_idx, len(response_text))] loop: [rest] is
    [response_text[i:]].  The result is the index [i] at which the loop
    reaches [json_str = response_text[start_idx:i+1]]. *)
Fixpoint scan_braces (rest : str) (i : nat) (depth : Z) : option nat :=
  match rest with
  | [] => None
  | c :: rest' =>
      if c =? lbrace then scan_braces rest' (S i) (depth + 1)
      else if c =? rbrace then
        let depth := (depth - 1)%Z in
        if (depth =? 0)%Z then Some i else scan_braces rest' (S i) depth
      else scan_braces rest' (S i) depth
  end.

Section Jsonp.
Context {J : Type}.
(** [json.loads]; [None] is [json.JSONDecodeError]. *)
Context (json_loads : str → option J).

(** [_parse_jsonp_response]; [inl] is a raised [JSONPParseError]. *)
Definition _parse_jsonp_response (response_text : str) : jsonp_error + J :=
  match find lbrace response_text with
  | None => inl NoJsonStart
  | Some start_idx =>
      match scan_braces (drop start_idx response_text) start_idx 0 with
      | Some i =>
          let json_str := slice response_text start_idx (i + 1) in
          match json_loads json_str with
          | Some data => inr data
          | None => inl JsonDecodeFailed
          end
      | None => inl NoJsonEnd
      end
  end.
End Jsonp.

(** [get_pdf_url] *)
Definition get_pdf_url (infocode : pyval) : str :=
  Config.PDF_BASE_URL ++ lit "/H3_" ++ py_str infocode ++ lit "_1.pdf".

(** [response.raise_for_status()] raises [HTTPStatusError] unless the
    status is 2xx. *)
Definition is_success (status_code : Z) : bool :=
  ((200 <=? status_code) && (status_code <=? 299))%Z.

(** The body of [download_pdf], one attempt: [inr (Some content)] is the
    returned bytes, [inr None] is [None].  The three handlers that are to
    raise [PDFDownloadError] raise [NameError] instead: client.py imports
    [DataFetchError], [APIRequestError] and [JSONPParseError] only, so the
    name is unbound when the [raise] statement looks it up. *)
Definition download_pdf_once (e : env) (infocode : pyval) (w : world)
    : (exn + option bytes) * world :=
  let pdf_url := get_pdf_url infocode in
  let '(head_response, w) := request e HEAD pdf_url w in
  match head_response with
  | RequestError _ => (inl NameError, w)
  | Response _ _ =>
      (* an HTTPStatusError of the HEAD request is passed over *)
      let '(response, w) := request e GET pdf_url w in
      match response with
      | RequestError _ => (inl NameError, w)
      | Response status_code content =>
          if is_success status_code then (inr (Some content), w)
          else if (status_code =? 404)%Z then (inr None, w)
          else (inl NameError, w)
      end
  end.

(** tenacity's [@retry(stop=stop_after_attempt(n))]: the call is repeated
    while it raises; after the n-th failure [RetryError] is raised. *)
Fixpoint retry {A : Type} (attempts : nat) (f : world → (exn + A) * world)
    (w : world) : (exn + A) * world :=
  match attempts with
  | O => (inl RetryError, w)
  | S k =>
      match f w with
      | (inr v, w') => (inr v, w')
      | (inl _, w') => retry k f w'
      end
  end.

(** [download_pdf], with its decorator. *)
Definition download_pdf (e : env) (infocode : pyval) (w : world)
    : (exn + option bytes) * world :=
  retry Config.MAX_RETRIES (download_pdf_once e infocode) w.

End EastmoneyClient.

(** ** store/eastmoney/__init__.py

    The store factory is taken with [config.SAVE_DATA_OPTION = 'sqlite'],
    as every entry point sets it. *)

Module Store.
Import EastmoneySqliteStore.

(** [update_eastmoney_report] *)
Definition update_eastmoney_report (e : env) (report_item : pydict) (w : world)
    : world :=
  if negb (truthy (get report_item "infocode")) then w
  else
    let '(current_time, w) := read_clock e w in
    set_db (store_content current_time report_item (db w)) w.

(** [save_pdf_file] *)
Definition save_pdf_file (infocode : pyval) (pdf_content : bytes)
    (extension_file_name : str) (w : world) : str * world :=
  let '(file_path, f) :=
    EastmoneyPdfStorage.store_pdf infocode pdf_content extension_file_name (files w) in
  (file_path, set_files f w).

(** [get_new_reports_for_feishu(days)] *)
Definition get_new_reports (e : env) (days : Z) (w : world)
    : list pydict * world :=
  let '(now, w) := read_clock e w in
  (get_new_reports_for_feishu now days (db w), w).

End Store.

(** ** media_platform/eastmoney/core.py *)

Module EastmoneyCrawler.
Import EastmoneyClient Store.

Definition no_pdf_message : str := lit "No PDF attachment".
Definition returned_none_message : str := lit "PDF download returned None".

(** The dict [db_item] that [_process_report] prepares. *)
Definition prepare_db_item (info_code : pyval) (report_data : pydict) : pydict :=
  list_to_map
    [ ("infocode"%string, info_code);
      ("report_title"%string, get_or report_data "title" (PStr []));
      ("org_name"%string, get_or report_data "orgName" (PStr []));
      ("analyst"%string, get_or report_data "researcher" (PStr []));
      ("publish_date"%string, get_or report_data "publishDate" (PStr []));
      ("industry"%string, get_or report_data "indvInduName" (PStr []));
      ("stock_code"%string, get_or report_data "stockCode" (PStr []));
      ("rating"%string, get_or report_data "emRatingName" (PStr []));
      ("pdf_url"%string, PStr (get_pdf_url info_code));
      ("pdf_size"%string, get_or report_data "attachSize" (PInt 0));
      ("pdf_pages"%string, get_or report_data "attachPages" (PInt 0));
      ("attach_type"%string, get_or report_data "attachType" (PStr [])) ].

Definition mark_failed (msg : str) (db_item : pydict) : pydict :=
  <["error_message"%string := PStr msg]>
    (<["download_status"%string := PStr (lit "failed")]> db_item).

(** [_process_report]: [inr None] and [inr (Some db_item)] are the returned
    values, [inl] an exception that leaves the method. *)
Definition _process_report (e : env) (report_data : pydict) (w : world)
    : (exn + option pydict) * world :=
  let info_code := get_or report_data "infoCode" (PStr []) in
  if negb (truthy info_code) then (inr None, w)
  else
    let db_item := prepare_db_item info_code report_data in
    if bool_decide (get report_data "attachType" ≠ PStr (lit "0")) then
      let db_item :=
        <["error_message"%string := PStr no_pdf_message]>
          (<["download_status"%string := PStr (lit "no_pdf")]> db_item) in
      (inr None, update_eastmoney_report e db_item w)
    else
      match download_pdf e info_code w with
      | (inr (Some ((_ :: _) as pdf_content)), w) =>
          let '(pdf_path, w) := save_pdf_file info_code pdf_content EastmoneyPdfStorage.dot_pdf w in
          let db_item :=
            <["download_status"%string := PStr (lit "completed")]>
              (<["pdf_path"%string := PStr pdf_path]> db_item) in
          (inr (Some db_item), update_eastmoney_report e db_item w)
      | (inr _, w) =>
          let db_item := mark_failed returned_none_message db_item in
          (inr (Some db_item), update_eastmoney_report e db_item w)
      | (inl (PDFDownloadError msg), w) =>
          let db_item := mark_failed msg db_item in
          (inr (Some db_item), update_eastmoney_report e db_item w)
      | (inl exc, w) => (inl exc, w)
      end.

(** [for report_data in reports: await self._process_report(report_data)] *)
Fixpoint process_reports (e : env) (reports : list pydict) (w : world)
    : option exn * world :=
  match reports with
  | [] => (None, w)
  | report_data :: rest =>
      match _process_report e report_data w with
      | (inr _, w) => process_reports e rest w
      | (inl exc, w) => (Some exc, w)
      end
  end.

(** [max_notes = PAGE_SIZE * 5] *)
Definition max_notes : nat := (Config.PAGE_SIZE * 5)%nat.

(** The [while len(all_reports) < max_notes] loop of [start].  [fuel]
    bounds the number of iterations of the model; [None] means the fuel ran
    out before the loop ended. *)
Fixpoint crawl_loop (fuel : nat) (e : env) (all_reports : list pydict)
    (page_no : nat) (w : world) : option (list pydict * world) :=
  if (length all_reports <? max_notes)%nat then
    match fuel with
    | O => None
    | S fuel =>
        let w := log_page page_no w in
        match fetch_report_list e page_no with
        | inl _ => Some (all_reports, w)          (* both handlers break *)
        | inr [] => Some (all_reports, w)         (* if not reports: break *)
        | inr reports =>
            let all_reports := all_reports ++ reports in
            match process_reports e reports w with
            | (Some _, w) => Some (all_reports, w)  (* except Exception: break *)
            | (None, w) => crawl_loop fuel e all_reports (S page_no) w
            end
        end
    end
  else Some (all_reports, w).

(** [start(days)]: the reports for the notification, and the world after
    the crawl.  The dates that [get_date_range(days)] computes before the
    loop are arguments of [fetch_report_list] only, which is a function of
    the environment here; a [days] on which that date arithmetic raises
    [OverflowError] is outside the model. *)
Definition start (e : env) (days : option Z) (w : world)
    : option (list pydict * world) :=
  let days := default Config.DEFAULT_DAYS days in
  '(_, w) ← crawl_loop max_notes e [] 1 w;
  Some (get_new_reports e days w).

(** [move_selected_pdfs] *)
Definition move_selected_pdfs (e : env) (infocodes : list str) (w : world)
    : (exn + gmap str str) * world :=
  let '(result, f) :=
    EastmoneyPdfStorage.move_to_target (posix e) infocodes (files w) in
  (result, set_files f w).

End EastmoneyCrawler.

(** ** main_eastmoney.py *)

Module Main.
Import EastmoneyCrawler.

(** [manual_crawl(days)]: the world when the coroutine ends.  An exception
    of [move_selected_pdfs] ends the process with the world as it is. *)
Definition manual_crawl (e : env) (days : option Z) (w : world) : option world :=
  '(new_reports, w) ← start e days w;
  if negb (bool_decide (new_reports = [])) && Config.SEND_LIST_TO_FEISHU then
    match EastmoneyFeishuBot.send_and_notify_reports (send_report_list e new_reports) with
    | Some selected_infocodes =>
        if Config.DELETE_UNSELECTED
        then Some (move_selected_pdfs e selected_infocodes w).2
        else Some w
    | None => Some w
    end
  else Some w.

End Main.

(** ** scheduler/eastmoney_scheduler.py *)

Module Scheduler.
Import EastmoneyCrawler.

(** [crawl_eastmoney_reports(days)] *)
Definition crawl_eastmoney_reports (e : env) (days : option Z) (w : world)
    : option world :=
  '(new_reports, w) ← start e (Some (default Config.DEFAULT_DAYS days)) w;
  if negb (bool_decide (new_reports = [])) && Config.SEND_LIST_TO_FEISHU then
    match EastmoneyFeishuBot.send_and_notify_reports (send_report_list e new_reports) with
    | Some selected_infocodes => Some (move_selected_pdfs e selected_infocodes w).2
    | None => Some w      (* "No user selection received" *)
    end
  else Some w.

(** [scheduled_crawl_job]: the crawl, the 15 minute wait, and the cleanup
    [storage.move_to_target([])]. *)
Definition scheduled_crawl_job (e : env) (w : world) : option world :=
  w ← crawl_eastmoney_reports e None w;
  Some (set_files (EastmoneyPdfStorage.move_to_target (posix e) [] (files w)).2 w).

End Scheduler.

(** * The specification's wording, for comparison with the code *)

(** ** The selection grammar of the approval gateway *)

Module SelectionGrammar.
Import EastmoneyFeishuBot.

(** Split on commas, ASCII and full-width alike. *)
Fixpoint split_commas (s : str) : list str :=
  match s with
  | [] => [[]]
  | c :: s' =>
      if (c =? 44) || (c =? 65292) then [] :: split_commas s'
      else match split_commas s' with
           | p :: ps => (c :: p) :: ps
           | [] => [[c]]
           end
  end.

(** Index [i] lies in [[1, n]]. *)
Definition in_range (n : nat) (i : Z) : bool :=
  ((1 <=? i) && (i <=? Z.of_nat n))%Z.

(** The identifiers at the given 1-based indices of the offered list. *)
Definition identifiers (offered : list str) (indices : list Z) : list str :=
  omap (λ i : Z, offered !! Z.to_nat (i - 1)) indices.

Section Grammar.
Context `{UnicodeData}.

(** The literal keep-all, delete-all and cancel tokens of the bot. *)
Definition is_command (t : str) : bool :=
  bool_decide (t ∈ [keep_all_cn; lit "all"; delete_all_cn; lit "all delete";
                    lit "delete all"; cancel_cn; lit "cancel"]).

(** A token that reads as an integer: trimmed, all digits. *)
Definition token_index (tok : str) : option Z :=
  let t := strip tok in
  if isdigit t then int t else None.

(** The in-range indices named by the reply, in the order of the reply. *)
Definition indices (n : nat) (text : str) : list Z :=
  List.filter (in_range n) (omap token_index (split_commas text)).

(** The selection as the specification words it: duplicates dropped. *)
Definition stated_selection (text : str) (offered : list str) : list str :=
  identifiers offered (remove_dups (indices (length offered) text)).

(** The selection with every in-range token kept. *)
Definition grammar_selection (text : str) (offered : list str) : list str :=
  identifiers offered (indices (length offered) text).

(** Every all-digit token of the reply is a numeral [int] accepts. *)
Definition digits_are_decimal (text : str) : bool :=
  forallb (λ tok, implb (isdigit (strip tok)) (bool_decide (is_Some (int (strip tok)))))
    (split_commas text).
End Grammar.

End SelectionGrammar.

(** ** The callback envelope of the listing gateway *)

Module Envelope.
Import EastmoneyClient.






End Envelope.

(** ** The retention resolver *)

Module Retention.
Import Os EastmoneyPdfStorage.

(** The identifier the resolver derives from a file name. *)
Definition infocode_of (filename : str) : str := replace dot_pdf [] filename.


(** The file name is the identifier the resolver derives from it, followed
    by ".pdf". *)
Definition plain_name (filename : str) : Prop :=
  infocode_of filename ++ dot_pdf = filename.

(** Every ".pdf" file of the directory has such a name. *)
Definition plain_names (d : gmap str bytes) : Prop :=
  ∀ name, is_Some (d !! name) → endswith dot_pdf name = true → plain_name name.

(** The two directories after the files [all_files] have been moved or
    deleted, one after the other. *)
Fixpoint placed (infocodes : list str) (all_files : list str)
    (s t : gmap str bytes) : gmap str bytes * gmap str bytes :=
  match all_files with
  | [] => (s, t)
  | name :: rest =>
      placed infocodes rest (delete name s)
        (if bool_decide (infocode_of name ∈ infocodes)
         then match s !! name with
              | Some content => <[infocode_of name ++ dot_pdf := content]> t
              | None => t
              end
         else t)
  end.

(** The directory without its ".pdf" files. *)
Definition without_pdfs (d : gmap str bytes) : gmap str bytes :=
  filter (λ kv, endswith dot_pdf kv.1 = false) d.

End Retention.

(** ** The cycle without a selection *)

Module Cycle.
Import EastmoneyCrawler.

(** The specification's wording for a cycle of [manual_crawl] in which no
    selection arrives: the files end where the resolver puts them for the
    empty selection. *)
Definition discards_without_selection (e : env) (days : option Z) (w : world)
    : Prop :=
  ∀ new_reports w1 w2,
    start e days w = Some (new_reports, w1) →
    EastmoneyFeishuBot.send_and_notify_reports (send_report_list e new_reports) = None →
    Main.manual_crawl e days w = Some w2 →
    files w2 = (EastmoneyPdfStorage.move_to_target (posix e) [] (files w1)).2.

End Cycle.

(** ** Attempts of the attachment fetcher *)

Module Attempts.
Import EastmoneyClient.

(** [failed_attempts e infocode k w w']: starting in [w], [k] attempts in a
    row raised, and left the world [w']. *)
Inductive failed_attempts (e : env) (infocode : pyval)
    : nat → world → world → Prop :=
  | no_attempt (w : world) : failed_attempts e infocode 0 w w
  | one_more (k : nat) (w w1 w2 : world) (exc : exn) :
      download_pdf_once e infocode w = (inl exc, w1) →
      failed_attempts e infocode k w1 w2 →
      failed_attempts e infocode (S k) w w2.

(** [w'] differs from [w] by requests added to the log only. *)
Definition only_requests (w w' : world) : Prop :=
  db w' = db w ∧ files w' = files w ∧ page_log w' = page_log w
  ∧ ticks w' = ticks w ∧ ∃ l, http_log w' = http_log w ++ l.

End Attempts.

(** ** Processing a report that is already stored as completed *)

Module Reprocess.
Import EastmoneySqliteStore EastmoneyCrawler.

Definition completed : pyval := PStr (lit "completed").


(** The path under which [store_pdf] saves the attachment of [info_code]. *)
Definition holding_path (info_code : pyval) : pyval :=
  PStr (Os.path_join Config.PDF_SAVE_DIR (py_str info_code ++ EastmoneyPdfStorage.dot_pdf)).


End Reprocess.

(** ** process_selection.py *)

Module ProcessSelection.
Import EastmoneyFeishuBot.

Section Selection.
Context `{UnicodeData}.

(** The [for part in parts] loop; [None] is the [ValueError] of [int],
    which nothing catches here. *)
Fixpoint parse_parts (n : nat) (selected_indices : list Z) (parts : list str)
    : option (list Z) :=
  match parts with
  | [] => Some selected_indices
  | part :: parts' =>
      let part := strip part in
      if isdigit part then
        idx ← int part;
        if ((1 <=? idx) && (idx <=? Z.of_nat n))%Z
        then parse_parts n (selected_indices ++ [idx]) parts'
        else parse_parts n selected_indices parts'
      else parse_parts n selected_indices parts'
  end.

(** The 1-based indices the text selects among [n] reports. *)
Definition selected_indices (selection_text : str) (n : nat) : option (list Z) :=
  if bool_decide (selection_text
                  ∈ [lit "all"; TimedFeishuListener.keep_all_short_cn; keep_all_cn])
  then Some (Z.of_nat <$> seq 1 n)
  else if bool_decide (selection_text ∈ [lit "delete"; delete_all_cn; lit "delete all"])
  then Some []
  else parse_parts n [] (split comma (replace fullwidth_comma [comma] selection_text)).

(** [process_selection]: [reports] are the identifiers of the recent
    reports, [confirmed] whether the answer to the prompt was "yes".
    [inr (Some l)] is the call [move_selected_pdfs(l)], [inr None] a return
    without it, [inl] an exception. *)
Definition process_selection (selection_text : str) (reports : list str)
    (confirmed : bool) : exn + option (list str) :=
  let selection_text := lower (strip selection_text) in
  match reports with
  | [] => inr None
  | _ =>
      match selected_indices selection_text (length reports) with
      | None => inl OtherError
      | Some [] => if confirmed then inr (Some []) else inr None
      | Some indices =>
          if confirmed then
            match index_all reports ((λ idx, idx - 1)%Z <$> indices) with
            | Some selected_infocodes => inr (Some selected_infocodes)
            | None => inl OtherError
            end
          else inr None
      end
  end.
End Selection.

End ProcessSelection.

(** ** What a crawl keeps *)

Module Keeps.
Import EastmoneySqliteStore.



(** The report has an identifier. *)
Definition has_infocode (report_data : pydict) : bool :=
  truthy (get_or report_data "infoCode" (PStr [])).

End Keeps.

(** * Concrete runs

    Inputs on which the model is evaluated below. *)

Module Examples.

(** Three offered reports. *)
Definition offered3 : list str := [lit "A1"; lit "B2"; lit "C3"].

(** Interpreter tables that know one non-ASCII digit, the superscript two:
    [isdigit] accepts it, [int] does not. *)
Definition superscript_tables : UnicodeData :=
  {| unicode_lower := λ s, s;
     unicode_isdigit := λ c, c =? 178;
     unicode_decimal := λ _, None |}.

(** A holding directory with the attachment of the report "a.pdf". *)
Definition inner_pdf_fs : Os.fs :=
  Os.Fs {[ lit "a.pdf.pdf" := [37; 80; 68; 70] ]} ∅.

(** A holding directory with two attachments, and a stale copy of the
    first in the target directory. *)
Definition two_files_fs : Os.fs :=
  Os.Fs (<[ lit "R1.pdf" := [1] ]> {[ lit "R2.pdf" := [2] ]})
        {[ lit "R1.pdf" := [9] ]}.

(** One report with an attachment, as the listing returns it. *)
Definition report_R1 : pydict :=
  list_to_map [ ("infoCode"%string, PStr (lit "R1"));
                ("title"%string, PStr (lit "Outlook"));
                ("attachType"%string, PStr (lit "0"));
                ("attachPages"%string, PInt 12) ].

(** One report without an attachment. *)
Definition report_R2 : pydict :=
  list_to_map [ ("infoCode"%string, PStr (lit "R2"));
                ("title"%string, PStr (lit "Note"));
                ("attachType"%string, PStr (lit "1")) ].

Definition pdf_bytes : bytes := [37; 80; 68; 70].

(** A listing of one page with that report; an attachment host that serves
    every request; a clock that advances by one second per reading; a
    messaging channel on which sending fails or succeeds. *)
Definition one_report_env (send_ok : bool) : env :=
  {| http := λ _ _ _, Response 200 pdf_bytes;
     fetch_report_list := λ page_no, if (page_no =? 1)%nat then inr [report_R1] else inr [];
     clock := λ n, (1700000000 + Z.of_nat n)%Z;
     send_report_list := λ _, send_ok;
     posix := true |}.

(** An attachment host that has no file. *)
Definition not_found_env : env :=
  {| http := λ _ _ _, Response 404 [];
     fetch_report_list := λ page_no, if (page_no =? 1)%nat then inr [report_R1] else inr [];
     clock := λ n, (1700000000 + Z.of_nat n)%Z;
     send_report_list := λ _, true;
     posix := true |}.

(** Before the first cycle. *)
Definition empty_world : world := World [] (Os.Fs ∅ ∅) [] [] 0.

(** The record of that report after a cycle that downloaded its
    attachment, and the world with it. *)
Definition stored_R1 : pydict :=
  EastmoneySqliteStore.new_report 1700000000
    (<["download_status"%string := Reprocess.completed]>
       (<["pdf_path"%string := Reprocess.holding_path (PStr (lit "R1"))]>
          (EastmoneyCrawler.prepare_db_item (PStr (lit "R1")) report_R1))).

Definition completed_world : world :=
  World [stored_R1] (Os.Fs {[ lit "R1.pdf" := pdf_bytes ]} ∅) [] [] 1.

End Examples.

(** * Properties *)

(** ** Python strings *)

Section StringFacts.
Import Py.

Lemma replace_char (a b : N) (s : str) :
  replace [a] [b] s = (λ c, if a =? c then b else c) <$> s.
Proof.
  unfold replace. induction s as [|c s IH]; [done|].
  cbn [replace_from startswith length fmap list_fmap].
  destruct (a =? c); cbn; by rewrite IH.
Qed.

Lemma split_replace_comma (s : str) :
  split 44 (replace [65292] [44] s) = SelectionGrammar.split_commas s.
Proof.
  rewrite replace_char. induction s as [|c s IH]; [done|].
  cbn [fmap list_fmap split SelectionGrammar.split_commas].
  change (list_fmap N N ?f s) with (f <$> s). rewrite IH.
  destruct (65292 =? c) eqn:E1.
  - apply N.eqb_eq in E1 as <-. done.
  - rewrite N.eqb_sym in E1. rewrite E1, orb_false_r. done.
Qed.

End StringFacts.

(** ** The selection parser of the bot *)

Section BotSelection.
Import EastmoneyFeishuBot SelectionGrammar.
Context `{UnicodeData}.

Lemma in_range_shift (n : nat) (v : Z) :
  ((0 <=? v - 1) && (v - 1 <? Z.of_nat n))%Z = in_range n v.
Proof. unfold in_range. lia. Qed.

Lemma parse_parts_tokens (n : nat) (parts : list str) : ∀ acc : list Z,
  forallb (λ tok, implb (isdigit (strip tok))
                    (bool_decide (is_Some (int (strip tok))))) parts = true →
  parse_parts n acc parts
  = Some (acc ++ ((λ v, v - 1)%Z <$> List.filter (in_range n) (omap token_index parts))).
Proof.
  induction parts as [|tok parts IH]; intros acc Hok.
  - cbn. by rewrite app_nil_r.
  - cbn [forallb] in Hok. apply andb_true_iff in Hok as [Htok Hrest].
    change (omap token_index (tok :: parts))
      with (match token_index tok with
            | Some y => y :: omap token_index parts
            | None => omap token_index parts
            end).
    change (parse_parts n acc (tok :: parts))
      with (parse_part n acc tok ≫= λ a, parse_parts n a parts).
    assert (Htk : token_index tok
                  = if isdigit (strip tok) then int (strip tok) else None) by done.
    rewrite Htk. unfold parse_part. cbv zeta.
    destruct (isdigit (strip tok)) eqn:Hd; cbn [implb] in Htok.
    + apply bool_decide_eq_true in Htok as [v Hv]. rewrite Hv.
      cbn [mbind option_bind]. rewrite in_range_shift.
      destruct (in_range n v) eqn:Hr; cbn [mbind option_bind List.filter];
        rewrite (IH _ Hrest), ?Hr; [|done].
      cbn. by rewrite <- app_assoc.
    + cbn [mbind option_bind]. by rewrite (IH _ Hrest).
Qed.

Lemma index_all_in_range (offered : list str) (idxs : list Z) :
  Forall (λ v, in_range (length offered) v = true) idxs →
  index_all offered ((λ v, v - 1)%Z <$> idxs) = Some (identifiers offered idxs).
Proof.
  unfold index_all, identifiers. induction 1 as [|v idxs Hv _ IH]; [done|].
  cbn [fmap list_fmap mapM omap].
  change (list_fmap Z Z ?f idxs) with (f <$> idxs). rewrite IH.
  unfold in_range in Hv.
  assert (Hlt : (Z.to_nat (v - 1) < length offered)%nat) by lia.
  destruct (lookup_lt_is_Some_2 _ _ Hlt) as [x Hx].
  replace (v - 1 <? 0)%Z with false by lia. rewrite Hx.
  cbn. by rewrite Hx.
Qed.

Lemma indices_in_range (n : nat) (text : str) :
  Forall (λ v, in_range n v = true) (indices n text).
Proof.
  unfold indices. apply Forall_forall. intros v Hv.
  apply list_elem_of_In, filter_In in Hv. tauto.
Qed.

Lemma parse_indices_grammar (t : str) (offered : list str) :
  digits_are_decimal t = true →
  parse_indices t offered = Some (grammar_selection t offered).
Proof.
  intros Hok. unfold parse_indices, fullwidth_comma, comma.
  rewrite split_replace_comma, (parse_parts_tokens _ _ [] Hok). cbn.
  apply index_all_in_range, indices_in_range.
Qed.

Lemma identifiers_elem (offered : list str) (x : str) (idxs : list Z) :
  x ∈ identifiers offered idxs
  ↔ ∃ i, i ∈ idxs ∧ offered !! Z.to_nat (i - 1) = Some x.
Proof. unfold identifiers. apply list_elem_of_omap. Qed.

Lemma stated_selection_same_identifiers (t : str) (offered : list str) (x : str) :
  x ∈ grammar_selection t offered ↔ x ∈ stated_selection t offered.
Proof.
  unfold grammar_selection, stated_selection. rewrite !identifiers_elem.
  by setoid_rewrite elem_of_remove_dups.
Qed.

Lemma process_user_selection_not_command (text : str) (offered : list str) :
  is_command (lower (strip text)) = false →
  process_user_selection text offered
  = default [] (parse_indices (lower (strip text)) offered).
Proof.
  unfold is_command, process_user_selection, streq. cbv zeta.
  intros Hc. apply bool_decide_eq_false in Hc.
  repeat (case_bool_decide as Hx;
          [exfalso; apply Hc; rewrite Hx; set_solver|clear Hx; cbn [orb]]).
  by destruct (parse_indices _ _).
Qed.

(** The keep-all tokens of the bot select every offered identifier. *)
Lemma process_user_selection_keep_all (text : str) (offered : list str) :
  lower (strip text) = keep_all_cn ∨ lower (strip text) = lit "all" →
  process_user_selection text offered = offered.
Proof.
  unfold process_user_selection, streq. intros [-> | ->]; done.
Qed.

(** The delete-all and cancel tokens of the bot select nothing. *)
Lemma process_user_selection_delete_all (text : str) (offered : list str) :
  lower (strip text) ∈ [delete_all_cn; lit "all delete"; lit "delete all";
                        cancel_cn; lit "cancel"] →
  process_user_selection text offered = [].
Proof.
  unfold process_user_selection, streq. intros Hin.
  repeat (apply elem_of_cons in Hin as [-> | Hin]; [done|]).
  by apply elem_of_nil in Hin.
Qed.

(** A token of digits that [int] rejects empties the whole selection. *)
Lemma parse_part_rejected (n : nat) (acc : list Z) (tok : str) :
  isdigit (strip tok) = true → int (strip tok) = None →
  parse_part n acc tok = None.
Proof. unfold parse_part. by intros -> ->. Qed.

(** C3, as amended.  For a reply that is none of the literal tokens, and
    whose all-digit tokens are numerals [int] accepts, the bot's parser
    returns the identifiers at the in-range 1-based indices named by the
    comma-separated tokens (ASCII or full-width comma), in the order of the
    reply and with repetitions kept; these are the same identifiers as
    those of the selection with duplicates dropped; and when no token
    reads as an integer the selection is empty. *)
Theorem process_user_selection_grammar (text : str) (offered : list str) :
  is_command (lower (strip text)) = false →
  digits_are_decimal (lower (strip text)) = true →
  process_user_selection text offered
    = grammar_selection (lower (strip text)) offered
  ∧ (∀ x, x ∈ process_user_selection text offered
          ↔ x ∈ stated_selection (lower (strip text)) offered)
  ∧ (omap token_index (split_commas (lower (strip text))) = [] →
     process_user_selection text offered = []).
Proof.
  intros Hc Hd.
  assert (Heq : process_user_selection text offered
                = grammar_selection (lower (strip text)) offered).
  { rewrite process_user_selection_not_command by done.
    by rewrite parse_indices_grammar. }
  split; [done|]. split.
  - intros x. rewrite Heq. apply stated_selection_same_identifiers.
  - intros Hnone. rewrite Heq. unfold grammar_selection, indices.
    by rewrite Hnone.
Qed.

End BotSelection.

(** ** Runs of the two parsers on ASCII replies and on the literal tokens *)

Section ParserRuns.
Import EastmoneyFeishuBot SelectionGrammar TimedFeishuListener Examples.
#[local] Existing Instance ascii_tables.

Example select_1_2_5 :
  process_user_selection (lit "1,2,5") offered3 = [lit "A1"; lit "B2"].
Proof. reflexivity. Qed.

Example select_empty_reply : process_user_selection [] offered3 = [].
Proof. reflexivity. Qed.

Example select_xyz : process_user_selection (lit "xyz") offered3 = [].
Proof. reflexivity. Qed.

Example select_fullwidth_comma :
  process_user_selection (lit " 3 " ++ fullwidth_comma ++ lit "1") offered3
  = [lit "C3"; lit "A1"].
Proof. reflexivity. Qed.

Lemma process_user_selection_grammar_witness :
  is_command (lower (strip (lit "1,2,5"))) = false
  ∧ digits_are_decimal (lower (strip (lit "1,2,5"))) = true
  ∧ process_user_selection (lit "1,2,5") offered3
    = grammar_selection (lower (strip (lit "1,2,5"))) offered3.
Proof.
  split; [reflexivity|]. split; [reflexivity|].
  apply (process_user_selection_grammar (lit "1,2,5") offered3); reflexivity.
Defined.

(** C3, counterexample.  The reply "1,1,2" against three offered reports:
    the specification's selection is the first two identifiers, each once;
    the parser returns the first identifier twice. *)
Lemma process_user_selection_keeps_duplicates :
  is_command (lower (strip (lit "1,1,2"))) = false
  ∧ stated_selection (lower (strip (lit "1,1,2"))) offered3 = [lit "A1"; lit "B2"]
  ∧ process_user_selection (lit "1,1,2") offered3
    = [lit "A1"; lit "A1"; lit "B2"]
  ∧ process_user_selection (lit "1,1,2") offered3
    ≠ stated_selection (lower (strip (lit "1,1,2"))) offered3
  ∧ ¬ NoDup (process_user_selection (lit "1,1,2") offered3).
Proof.
  split; [reflexivity|]. split; [reflexivity|]. split; [reflexivity|].
  split; [discriminate|].
  intros Hnd. apply NoDup_cons_1_1 in Hnd. apply Hnd. left.
Qed.

(** C4, the failing input.  The reply "全部" is a keep-all token of the
    timed listener and of process_selection.py, and selects every offered
    report there; the bot's parser has no such token, reads the reply as a
    list of indices and selects nothing. *)
Theorem process_user_selection_short_keep_all :
  process_user_selection keep_all_short_cn offered3 = []
  ∧ selected_infocodes offered3 <$> parse_user_selection keep_all_short_cn
    = Some offered3.
Proof. split; reflexivity. Qed.

(** The cancel tokens select nothing in the bot and are no selection at
    all for the timed listener. *)
Example cancel_is_no_selection_for_listener :
  process_user_selection (lit "cancel") offered3 = []
  ∧ parse_user_selection (lit "cancel") = None
  ∧ parse_user_selection cancel_cn = None.
Proof. repeat split; reflexivity. Qed.

(** The timed listener reads every run of digits. *)
Example listener_reads_digit_runs :
  parse_user_selection (lit "1 2,x33") = Some (SelNumbers [1; 2; 33]%Z)
  ∧ selected_infocodes offered3 (SelNumbers [1; 1; 2; 5]%Z)
    = [lit "A1"; lit "A1"; lit "B2"].
Proof. split; reflexivity. Qed.

End ParserRuns.

(** ** The selection parser of the timed listener *)

Section ListenerSelection.
Import EastmoneyFeishuBot TimedFeishuListener.
Context `{UnicodeData}.

(** The keep-all tokens of the timed listener select every offered report. *)
Lemma parse_user_selection_keep_all (text : str) (reports : list str) :
  lower (strip text) ∈ [keep_all_cn; lit "all"; keep_all_short_cn] →
  selected_infocodes reports <$> parse_user_selection text = Some reports.
Proof.
  intros Hin. unfold parse_user_selection. cbv zeta.
  by rewrite (bool_decide_eq_true_2 _ Hin).
Qed.

(** Its delete-all tokens select nothing. *)
Lemma parse_user_selection_delete_all (text : str) (reports : list str) :
  lower (strip text) ∈ [delete_all_cn; lit "delete"; lit "delete all"] →
  selected_infocodes reports <$> parse_user_selection text = Some [].
Proof.
  intros Hin. unfold parse_user_selection. cbv zeta.
  rewrite (bool_decide_eq_true_2 _ Hin).
  case_bool_decide as Hk; [|done].
  exfalso. revert Hin Hk. generalize (lower (strip text)). intros t Hd Hk.
  repeat (apply elem_of_cons in Hd as [-> | Hd];
          [by repeat (apply elem_of_cons in Hk as [Hk | Hk]; [done|]);
              apply elem_of_nil in Hk|]).
  by apply elem_of_nil in Hd.
Qed.

End ListenerSelection.


(** ** The retention resolver *)

Section RetentionFacts.
Import Os EastmoneyPdfStorage Retention.

Lemma rename_present (posix : bool) (src dst : str) (s t : gmap str bytes)
    (content : bytes) :
  s !! src = Some content →
  rename posix src dst (Fs s t)
  = (if negb posix && bool_decide (is_Some (t !! dst))
     then inl FileExistsError
     else inr (Fs (delete src s) (<[dst := content]> t))).
Proof. unfold rename. cbn. by intros ->. Qed.

(** One iteration on a file that is there: no exception leaves the loop,
    the file leaves the holding directory, and it reaches the target
    directory exactly when its identifier is selected. *)
Lemma move_one_present (posix : bool) (infocodes : list str) (name : str)
    (result : gmap str str) (s t : gmap str bytes) (content : bytes) :
  s !! name = Some content →
  ∃ result',
    move_one posix infocodes name (result, Fs s t)
    = (None, (result',
              Fs (delete name s)
                 (if bool_decide (infocode_of name ∈ infocodes)
                  then <[infocode_of name ++ dot_pdf := content]> t
                  else t)))
    ∧ (infocodes = [] → result' = result).
Proof.
  intros Hs. unfold move_one. fold (infocode_of name).
  case_bool_decide as Hsel.
  - rewrite (rename_present _ _ _ _ _ _ Hs).
    destruct (negb posix && bool_decide (is_Some (t !! _))) eqn:Hex.
    + apply andb_true_iff in Hex as [Hp Hex].
      apply bool_decide_eq_true in Hex as [old Hold].
      unfold remove_target. cbn [target_dir save_dir]. rewrite Hold.
      rewrite (rename_present _ _ _ _ _ _ Hs).
      rewrite lookup_delete_eq.
      replace (bool_decide (is_Some (@None bytes))) with false
        by (symmetry; apply bool_decide_eq_false; by intros [? ?]).
      rewrite andb_false_r, insert_delete_eq.
      eexists. split; [done|]. intros ->. by apply elem_of_nil in Hsel.
    + eexists. split; [done|]. intros ->. by apply elem_of_nil in Hsel.
  - unfold remove_save. cbn [save_dir target_dir]. rewrite Hs. eauto.
Qed.

(** The loop over files that are there, each listed once. *)
Lemma move_all_placed (posix : bool) (infocodes : list str) (l : list str) :
  ∀ (result : gmap str str) (s t : gmap str bytes),
  NoDup l → (∀ name, name ∈ l → is_Some (s !! name)) →
  ∃ result',
    move_all posix infocodes l (result, Fs s t)
    = (inr result', Fs (placed infocodes l s t).1 (placed infocodes l s t).2)
    ∧ (infocodes = [] → result' = result).
Proof.
  induction l as [|name l IH]; intros result s t Hnd Hin.
  - eexists. split; done.
  - apply NoDup_cons in Hnd as [Hname Hnd].
    destruct (Hin name) as [content Hc]; [left|].
    destruct (move_one_present posix infocodes name result s t content Hc)
      as (result1 & Hone & Hres1).
    cbn [move_all placed]. rewrite Hone, Hc.
    edestruct (IH result1 (delete name s)) as (result2 & Hall & Hres2); [done| |].
    + intros name' Hin'. rewrite lookup_delete_ne.
      * apply Hin. by right.
      * intros ->. done.
    + rewrite Hall. eexists. split; [done|].
      intros Hnil. by rewrite (Hres2 Hnil), (Hres1 Hnil).
Qed.

Lemma placed_save (infocodes : list str) (l : list str) :
  ∀ (s t : gmap str bytes) (k : str),
  (placed infocodes l s t).1 !! k = if bool_decide (k ∈ l) then None else s !! k.
Proof.
  induction l as [|name l IH]; intros s t k; [done|].
  cbn [placed]. rewrite IH.
  destruct (decide (k = name)) as [->|Hne].
  - rewrite lookup_delete_eq. rewrite (bool_decide_eq_true_2 (name ∈ name :: l)) by left.
    by case_bool_decide.
  - rewrite lookup_delete_ne by done.
    rewrite (bool_decide_ext (k ∈ l) (k ∈ name :: l)); [done|].
    rewrite elem_of_cons. split; [by right | by intros [?|?]].
Qed.

Lemma placed_nil_target (l : list str) :
  ∀ s t : gmap str bytes, (placed [] l s t).2 = t.
Proof.
  induction l as [|name l IH]; intros s t; [done|].
  cbn [placed]. rewrite IH. case_bool_decide as Hin; [|done].
  by apply elem_of_nil in Hin.
Qed.

Lemma placed_target (infocodes : list str) (l : list str) :
  ∀ (s t : gmap str bytes) (k : str),
  NoDup l → (∀ name, name ∈ l → is_Some (s !! name)) →
  (∀ name, name ∈ l → plain_name name) →
  (placed infocodes l s t).2 !! k
  = if bool_decide (k ∈ l ∧ infocode_of k ∈ infocodes) then s !! k else t !! k.
Proof.
  induction l as [|name l IH]; intros s t k Hnd Hin Hplain.
  - cbn. case_bool_decide as Hk; [|done]. destruct Hk as [Hk _].
    by apply elem_of_nil in Hk.
  - apply NoDup_cons in Hnd as [Hname Hnd].
    destruct (Hin name) as [content Hc]; [left|].
    cbn [placed]. rewrite Hc, (Hplain name) by left.
    rewrite IH; [|done| |].
    + destruct (decide (k = name)) as [->|Hne].
      * rewrite (bool_decide_eq_false_2 (name ∈ l ∧ _)) by tauto.
        case_bool_decide as Hsel.
        -- rewrite lookup_insert_eq, Hc.
           by rewrite bool_decide_eq_true_2 by (split; [left|done]).
        -- by rewrite bool_decide_eq_false_2 by tauto.
      * rewrite lookup_delete_ne by done.
        rewrite (bool_decide_ext (k ∈ l ∧ infocode_of k ∈ infocodes)
                   (k ∈ name :: l ∧ infocode_of k ∈ infocodes)).
        2:{ rewrite elem_of_cons. tauto. }
        case_bool_decide; [done|].
        case_bool_decide; [by rewrite lookup_insert_ne|done].
    + intros name' Hin'. rewrite lookup_delete_ne.
      * apply Hin. by right.
      * by intros ->.
    + intros name' Hin'. apply Hplain. by right.
Qed.

Lemma elem_of_bool_filter {A : Type} (p : A → bool) (l : list A) (x : A) :
  x ∈ List.filter p l ↔ x ∈ l ∧ p x = true.
Proof. by rewrite !list_elem_of_In, filter_In. Qed.

Lemma NoDup_bool_filter {A : Type} (p : A → bool) (l : list A) :
  NoDup l → NoDup (List.filter p l).
Proof.
  induction 1 as [|x l Hx Hnd IH]; cbn; [constructor|].
  destruct (p x); [|done]. constructor; [|done].
  rewrite elem_of_bool_filter. tauto.
Qed.

(** The files [move_to_target] works through: the ".pdf" names of the
    holding directory, each once. *)
Lemma all_files_NoDup (f : fs) :
  NoDup (List.filter (endswith dot_pdf) (listdir_save f)).
Proof. apply NoDup_bool_filter, NoDup_fst_map_to_list. Qed.

Lemma all_files_elem (f : fs) (name : str) :
  name ∈ List.filter (endswith dot_pdf) (listdir_save f)
  ↔ is_Some (save_dir f !! name) ∧ endswith dot_pdf name = true.
Proof.
  rewrite elem_of_bool_filter.
  unfold listdir_save. rewrite list_elem_of_fmap.
  split.
  - intros [([k v] & -> & Hkv) He]. apply elem_of_map_to_list in Hkv.
    cbn. split; [by exists v|done].
  - intros [[v Hv] He]. split; [|done].
    exists (name, v). split; [done|]. by apply elem_of_map_to_list.
Qed.

Lemma without_pdfs_lookup (d : gmap str bytes) (k : str) :
  without_pdfs d !! k = if endswith dot_pdf k then None else d !! k.
Proof.
  unfold without_pdfs. apply option_eq. intros v.
  rewrite map_lookup_filter_Some. cbn [fst].
  destruct (endswith dot_pdf k); split; (intros [? ?] || intros ?); done.
Qed.

(** The resolver never raises on a holding directory it has just listed,
    and it empties the directory of its ".pdf" files. *)
Lemma move_to_target_save (posix : bool) (infocodes : list str) (f : fs) :
  ∃ result t,
    move_to_target posix infocodes f = (inr result, Fs (without_pdfs (save_dir f)) t)
    ∧ t = (placed infocodes (List.filter (endswith dot_pdf) (listdir_save f))
             (save_dir f) (target_dir f)).2
    ∧ (infocodes = [] → result = ∅).
Proof.
  unfold move_to_target. destruct f as [s t].
  destruct (move_all_placed posix infocodes _ ∅ s t (all_files_NoDup (Fs s t)))
    as (result & Hall & Hres).
  { intros name Hin. by apply all_files_elem in Hin as [? _]. }
  exists result, (placed infocodes (List.filter (endswith dot_pdf)
                     (listdir_save (Fs s t))) s t).2.
  split; [|done]. rewrite Hall. do 2 f_equal.
  apply map_eq. intros k. rewrite placed_save, without_pdfs_lookup.
  pose proof (all_files_elem (Fs s t) k) as Hk. cbn [save_dir] in Hk.
  case_bool_decide as Hin.
  - apply Hk in Hin as [_ ->]. done.
  - destruct (endswith dot_pdf k) eqn:He; [|done].
    destruct (s !! k) eqn:Hs; [|done]. exfalso. apply Hin, Hk. eauto.
Qed.

(** With the empty selection the resolver deletes every ".pdf" file of the
    holding directory and leaves the target directory as it is. *)
Lemma move_to_target_nil (posix : bool) (f : fs) :
  move_to_target posix [] f
  = (inr ∅, Fs (without_pdfs (save_dir f)) (target_dir f)).
Proof.
  destruct (move_to_target_save posix [] f) as (result & t & -> & -> & Hres).
  by rewrite placed_nil_target, Hres.
Qed.

Lemma without_pdfs_idemp (d : gmap str bytes) :
  without_pdfs (without_pdfs d) = without_pdfs d.
Proof.
  apply map_eq. intros k. rewrite !without_pdfs_lookup.
  by destruct (endswith dot_pdf k).
Qed.

Lemma startswith_app (p s : str) : startswith p (p ++ s) = true.
Proof. induction p as [|c p IH]; [done|]. cbn. by rewrite N.eqb_refl. Qed.

Lemma endswith_app (p s : str) : endswith p (s ++ p) = true.
Proof. unfold endswith. rewrite reverse_app. apply startswith_app. Qed.





(** X1.  The placement of every file of a holding directory whose ".pdf"
    names are plain: the file is gone from the holding directory; when its
    identifier is selected it is in the target directory, with its content,
    under its name, whatever was there before; when it is not selected the
    target directory has under that name what it had before. *)
Theorem move_to_target_placement (posix : bool) (infocodes : list str) (f : fs)
    (id : str) (content : bytes) :
  plain_names (save_dir f) →
  save_dir f !! (id ++ dot_pdf) = Some content →
  ∃ result f',
    move_to_target posix infocodes f = (inr result, f')
    ∧ save_dir f' !! (id ++ dot_pdf) = None
    ∧ (id ∈ infocodes → target_dir f' !! (id ++ dot_pdf) = Some content)
    ∧ (id ∉ infocodes →
       target_dir f' !! (id ++ dot_pdf) = target_dir f !! (id ++ dot_pdf)).
Proof.
  intros Hplain Hfile.
  destruct (move_to_target_save posix infocodes f) as (result & t & Hmove & Ht & _).
  exists result, (Fs (without_pdfs (save_dir f)) t). split; [done|].
  cbn [save_dir target_dir].
  assert (Hid : infocode_of (id ++ dot_pdf) = id).
  { apply (app_inv_tail dot_pdf), Hplain; [by rewrite Hfile|apply endswith_app]. }
  assert (Hin : id ++ dot_pdf ∈ List.filter (endswith dot_pdf) (listdir_save f)).
  { apply all_files_elem. split; [by rewrite Hfile|apply endswith_app]. }
  split; [by rewrite without_pdfs_lookup, endswith_app|].
  rewrite Ht, placed_target; [|apply all_files_NoDup| |].
  - rewrite Hid. split; intros Hsel.
    + by rewrite bool_decide_eq_true_2.
    + by rewrite bool_decide_eq_false_2 by tauto.
  - intros name Hname. by apply all_files_elem in Hname as [? _].
  - intros name Hname. apply all_files_elem in Hname as [? ?]. by apply Hplain.
Qed.

End RetentionFacts.

Section RetentionRuns.
Import Os EastmoneyPdfStorage Retention Examples.

Lemma move_to_target_placement_witness :
  plain_names (save_dir two_files_fs)
  ∧ save_dir two_files_fs !! (lit "R1" ++ dot_pdf) = Some [1]
  ∧ ∃ result f',
      move_to_target false [lit "R1"] two_files_fs = (inr result, f')
      ∧ save_dir f' !! (lit "R1" ++ dot_pdf) = None
      ∧ (lit "R1" ∈ [lit "R1"] → target_dir f' !! (lit "R1" ++ dot_pdf) = Some [1])
      ∧ (lit "R1" ∉ [lit "R1"] →
         target_dir f' !! (lit "R1" ++ dot_pdf)
         = target_dir two_files_fs !! (lit "R1" ++ dot_pdf)).
Proof.
  assert (Hplain : plain_names (save_dir two_files_fs)).
  { intros name [content Hname] _. unfold two_files_fs in Hname. cbn [save_dir] in Hname.
    apply lookup_insert_Some in Hname as [[<- _]|[_ Hname]]; [reflexivity|].
    apply lookup_singleton_Some in Hname as [<- _]. reflexivity. }
  split; [exact Hplain|]. split; [reflexivity|].
  apply (move_to_target_placement false [lit "R1"] two_files_fs (lit "R1") [1] Hplain).
  reflexivity.
Defined.

(** The stale copy in the target directory is overwritten, on either
    platform, and the unselected file is deleted. *)
Example move_to_target_overwrites (posix : bool) :
  move_to_target posix [lit "R1"] two_files_fs
  = (inr {[ lit "R1" := path_join Config.TARGET_PDF_DIR (lit "R1.pdf") ]},
     Fs ∅ {[ lit "R1.pdf" := [1] ]}).
Proof. destruct posix; vm_compute; reflexivity. Qed.

(** C1, the failing input.  The holding directory has the attachment of the
    report whose identifier is "a.pdf", stored as "a.pdf.pdf", and the
    selection names that identifier.  The resolver takes "a" for the
    identifier of the file, does not find it in the selection, and deletes
    the file: it is in neither directory afterwards. *)
Theorem move_to_target_inner_pdf (posix : bool) :
  save_dir inner_pdf_fs !! (lit "a.pdf" ++ dot_pdf) = Some [37; 80; 68; 70]
  ∧ lit "a.pdf" ∈ [lit "a.pdf"]
  ∧ infocode_of (lit "a.pdf" ++ dot_pdf) = lit "a"
  ∧ move_to_target posix [lit "a.pdf"] inner_pdf_fs = (inr ∅, Fs ∅ ∅).
Proof.
  split; [reflexivity|]. split; [left|]. split; [reflexivity|].
  destruct posix; vm_compute; reflexivity.
Qed.

End RetentionRuns.

(** ** A cycle in which no selection arrives *)

Section CycleFacts.
Import Os EastmoneyPdfStorage Retention EastmoneyCrawler EastmoneyFeishuBot.

Lemma move_selected_pdfs_nil (e : env) (w : world) :
  (move_selected_pdfs e [] w).2
  = set_files (Fs (without_pdfs (save_dir (files w))) (target_dir (files w))) w.
Proof. unfold move_selected_pdfs. by rewrite move_to_target_nil. Qed.

Lemma start_default_days (e : env) (w : world) :
  start e (Some (default Config.DEFAULT_DAYS None)) w = start e None w.
Proof. reflexivity. Qed.

(** When sending fails [manual_crawl] ends in the world the crawl left. *)
Lemma manual_crawl_send_failed (e : env) (days : option Z) (w w1 : world)
    (new_reports : list pydict) :
  start e days w = Some (new_reports, w1) →
  send_report_list e new_reports = false →
  Main.manual_crawl e days w = Some w1.
Proof.
  intros Hstart Hsend. unfold Main.manual_crawl. rewrite Hstart.
  cbn [mbind option_bind]. rewrite Hsend. cbn.
  by destruct (negb _).
Qed.

(** C2, as amended.  Let a crawl end in the world [w1] with the reports
    [new_reports] to announce.
    - The scheduled job ends with the placement the resolver gives for the
      empty selection, whether sending succeeded or failed.
    - [manual_crawl], when there are reports to announce and sending
      succeeds, runs the resolver with the empty selection and ends with
      that placement.
    - [manual_crawl], when sending fails, does not run the resolver: the
      world, and with it the holding directory, stays as the crawl left
      it. *)
Theorem placement_without_selection (e : env) (days : option Z) (w w1 : world)
    (new_reports : list pydict) :
  start e days w = Some (new_reports, w1) →
  (days = None →
   ∃ w', Scheduler.scheduled_crawl_job e w = Some w'
         ∧ files w' = (move_to_target (posix e) [] (files w1)).2)
  ∧ (new_reports ≠ [] → send_report_list e new_reports = true →
     ∃ w', Main.manual_crawl e days w = Some w'
           ∧ files w' = (move_to_target (posix e) [] (files w1)).2)
  ∧ (send_report_list e new_reports = false →
     Main.manual_crawl e days w = Some w1).
Proof.
  intros Hstart. split; [|split].
  - intros ->. unfold Scheduler.scheduled_crawl_job, Scheduler.crawl_eastmoney_reports.
    rewrite start_default_days, Hstart. cbn [mbind option_bind].
    rewrite !move_to_target_nil.
    destruct (negb (bool_decide (new_reports = [])) && Config.SEND_LIST_TO_FEISHU);
      [destruct (send_and_notify_reports _) as [sel|] eqn:Hsend|].
    + assert (sel = []) as ->.
      { unfold send_and_notify_reports in Hsend.
        destruct (negb _); by inversion Hsend. }
      rewrite move_selected_pdfs_nil. cbn [mbind option_bind].
      rewrite move_to_target_nil. eexists. split; [done|].
      cbn. by rewrite without_pdfs_idemp.
    + cbn [mbind option_bind]. rewrite move_to_target_nil. by eexists.
    + cbn [mbind option_bind]. rewrite move_to_target_nil. by eexists.
  - intros Hne Hsend. unfold Main.manual_crawl. rewrite Hstart.
    cbn [mbind option_bind].
    rewrite (bool_decide_eq_false_2 _ Hne), Hsend. cbn.
    rewrite move_selected_pdfs_nil, move_to_target_nil. by eexists.
  - by apply manual_crawl_send_failed.
Qed.

End CycleFacts.

Section CycleRuns.
Import Os EastmoneyPdfStorage Retention EastmoneyCrawler Examples.

(** The crawl of the one-report listing leaves the attachment in the
    holding directory and has one report to announce. *)
Lemma start_one_report (send_ok : bool) :
  (λ r, (length r.1, save_dir (files r.2) !! lit "R1.pdf"))
    <$> start (one_report_env send_ok) None empty_world
  = Some (1%nat, Some pdf_bytes).
Proof. destruct send_ok; vm_compute; reflexivity. Qed.

Lemma placement_without_selection_witness :
  ∃ new_reports w1,
    start (one_report_env true) None empty_world = Some (new_reports, w1)
    ∧ new_reports ≠ []
    ∧ send_report_list (one_report_env true) new_reports = true
    ∧ (∃ w', Scheduler.scheduled_crawl_job (one_report_env true) empty_world = Some w'
             ∧ files w' = (move_to_target true [] (files w1)).2)
    ∧ (∃ w', Main.manual_crawl (one_report_env true) None empty_world = Some w'
             ∧ files w' = (move_to_target true [] (files w1)).2).
Proof.
  pose proof (start_one_report true) as Hrun.
  destruct (start (one_report_env true) None empty_world) as [[nr w1]|] eqn:Hstart;
    [|discriminate].
  assert (Hne : nr ≠ []) by (intros ->; discriminate).
  exists nr, w1. split; [reflexivity|]. split; [exact Hne|]. split; [reflexivity|].
  destruct (placement_without_selection (one_report_env true) None empty_world
              w1 nr Hstart) as (Hjob & Hok & _).
  split; [exact (Hjob eq_refl)|exact (Hok Hne eq_refl)].
Defined.

(** C2, counterexample.  After a crawl that downloaded one attachment,
    sending the list fails.  [manual_crawl] ends with the attachment still
    in the holding directory; the resolver with the empty selection would
    have deleted it. *)
Lemma manual_crawl_send_failure_keeps_files :
  ¬ Cycle.discards_without_selection (one_report_env false) None empty_world.
Proof.
  intros Hc.
  pose proof (start_one_report false) as Hrun.
  destruct (start (one_report_env false) None empty_world) as [[nr w1]|] eqn:Hstart;
    [|discriminate].
  injection Hrun as _ Hkept.
  specialize (Hc nr w1 w1 Hstart eq_refl
                (manual_crawl_send_failed _ _ _ _ _ Hstart eq_refl)).
  rewrite move_to_target_nil in Hc. rewrite Hc in Hkept. cbn [save_dir snd] in Hkept.
  rewrite without_pdfs_lookup in Hkept.
  change (endswith dot_pdf (lit "R1.pdf")) with true in Hkept. discriminate.
Qed.

End CycleRuns.

(** ** The sqlite store *)

Section StoreFacts.
Import EastmoneySqliteStore.

Lemma copy_if_present_other (content_item update_data : pydict) (key k : string) :
  k ≠ key → copy_if_present content_item key update_data !! k = update_data !! k.
Proof.
  intros Hne. unfold copy_if_present.
  destruct (content_item !! key); [by rewrite lookup_insert_ne|done].
Qed.

Lemma report_is_exist_rows (db : table) (infocode : pyval) :
  report_is_exist db infocode = false ↔ rows_of infocode db = [].
Proof.
  unfold report_is_exist, rows_of. induction db as [|row db IH]; [done|].
  cbn. destruct (matches infocode row); cbn; [split; done|exact IH].
Qed.

(** An update that does not write the identifier column keeps the rows of
    every identifier in place. *)
Lemma execute_update_rows (infocode other : pyval) (update_data : pydict) (db : table) :
  update_data !! "infocode"%string = None →
  rows_of other (execute_update infocode update_data db)
  = (λ row, if matches infocode row then update_data ∪ row else row)
    <$> rows_of other db.
Proof.
  intros Hu. unfold rows_of, execute_update.
  induction db as [|row db IH]; [done|].
  cbn [fmap list_fmap List.filter].
  assert (Hm : matches other (if matches infocode row then update_data ∪ row else row)
               = matches other row).
  { destruct (matches infocode row); [|done]. unfold matches.
    by rewrite (lookup_union_r update_data row _ Hu). }
  rewrite Hm. destruct (matches other row); cbn [fmap list_fmap]; by rewrite <- IH.
Qed.

Lemma execute_update_length (infocode : pyval) (update_data : pydict) (db : table) :
  length (execute_update infocode update_data db) = length db.
Proof. unfold execute_update. apply length_fmap. Qed.

Lemma rows_of_matches (infocode : pyval) (db : table) (row : pydict) :
  row ∈ rows_of infocode db → matches infocode row = true.
Proof. unfold rows_of. rewrite elem_of_bool_filter. tauto. Qed.

Lemma copy_if_present_lookup (content_item update_data : pydict) (key k : string) :
  copy_if_present content_item key update_data !! k
  = if decide (k = key)
    then match content_item !! k with
         | Some v => Some v
         | None => update_data !! k
         end
    else update_data !! k.
Proof.
  unfold copy_if_present. case_decide as Hk.
  - subst k. destruct (content_item !! key); [by rewrite lookup_insert_eq|done].
  - destruct (content_item !! key); [by rewrite lookup_insert_ne|done].
Qed.

(** What [update_report] writes: the time stamp, and the five optional
    columns the item supplies. *)
Lemma report_update_data_lookup (current_time : Z) (content_item : pydict)
    (k : string) :
  report_update_data current_time content_item !! k
  = if decide (k = "update_time"%string) then Some (PInt current_time)
    else if decide (k ∈ optional_columns) then content_item !! k
    else None.
Proof.
  unfold report_update_data, optional_columns. cbv zeta.
  rewrite !copy_if_present_lookup.
  destruct (decide (k = "update_time"%string)) as [->|Hut].
  - repeat (case_decide; [done|]). apply lookup_singleton_eq.
  - rewrite (lookup_singleton_ne "update_time"%string k) by done.
    destruct (decide (k ∈ _)) as [Hin|Hnin].
    + repeat (apply elem_of_cons in Hin as [->|Hin];
              [repeat (rewrite decide_True by done || rewrite decide_False by done);
               by destruct (content_item !! _)|]).
      by apply elem_of_nil in Hin.
    + rewrite !decide_False by (intros ->; apply Hnin; set_solver). done.
Qed.

Lemma new_report_infocode (current_time : Z) (content_item : pydict) :
  new_report current_time content_item !! "infocode"%string
  = Some (get content_item "infocode").
Proof. reflexivity. Qed.

Lemma new_report_times (current_time : Z) (content_item : pydict) :
  new_report current_time content_item !! "create_time"%string = Some (PInt current_time)
  ∧ new_report current_time content_item !! "update_time"%string = Some (PInt current_time).
Proof. split; reflexivity. Qed.

Lemma new_report_status (current_time : Z) (content_item : pydict) :
  new_report current_time content_item !! "download_status"%string
  = Some (get_or content_item "download_status" (PStr (lit "pending"))).
Proof. reflexivity. Qed.

Lemma report_update_data_infocode (current_time : Z) (content_item : pydict) :
  report_update_data current_time content_item !! "infocode"%string = None.
Proof.
  rewrite report_update_data_lookup, decide_False by done.
  rewrite decide_False; [done|]. unfold optional_columns. intros Hin.
  repeat (apply elem_of_cons in Hin as [Hin|Hin]; [done|]).
  by apply elem_of_nil in Hin.
Qed.

Lemma report_update_data_time (current_time : Z) (content_item : pydict) :
  report_update_data current_time content_item !! "update_time"%string
  = Some (PInt current_time).
Proof. by rewrite report_update_data_lookup, decide_True. Qed.

(** The rows of the item's identifier after [store_content]: the new row
    when there was none, the updated rows otherwise. *)
Lemma store_content_rows (current_time : Z) (content_item : pydict) (db : table) :
  let infocode := get content_item "infocode" in
  truthy infocode = true →
  rows_of infocode (store_content current_time content_item db)
  = match rows_of infocode db with
    | [] => [new_report current_time content_item]
    | rows => (report_update_data current_time content_item ∪.) <$> rows
    end.
Proof.
  intros infocode Htruthy. unfold store_content. fold infocode.
  rewrite Htruthy. cbn [negb].
  destruct (report_is_exist db infocode) eqn:Hex.
  - unfold update_report. fold infocode.
    rewrite execute_update_rows by apply report_update_data_infocode.
    assert (Hne : rows_of infocode db ≠ []).
    { intros Hnil. apply report_is_exist_rows in Hnil. congruence. }
    destruct (rows_of infocode db) as [|row rows] eqn:Hrows; [done|].
    apply list_fmap_ext. intros i r Hr.
    rewrite (rows_of_matches infocode db r); [done|].
    rewrite Hrows. by eapply list_elem_of_lookup_2.
  - apply report_is_exist_rows in Hex. unfold add_report, rows_of.
    rewrite List.filter_app. fold (rows_of infocode db). rewrite Hex.
    cbn [List.filter app]. unfold matches. rewrite new_report_infocode. fold infocode.
    by rewrite bool_decide_eq_true_2.
Qed.

Lemma store_content_length (current_time : Z) (content_item : pydict) (db : table) :
  length (store_content current_time content_item db)
  = if negb (truthy (get content_item "infocode")) then length db
    else if report_is_exist db (get content_item "infocode") then length db
    else S (length db).
Proof.
  unfold store_content. destruct (negb _); [done|].
  destruct (report_is_exist _ _).
  - apply execute_update_length.
  - unfold add_report. rewrite length_app. cbn. lia.
Qed.

(** After [store_content] every row of the identifier carries the time of
    the call. *)
Lemma store_content_update_time (current_time : Z) (content_item : pydict)
    (db : table) (row : pydict) :
  truthy (get content_item "infocode") = true →
  row ∈ rows_of (get content_item "infocode")
          (store_content current_time content_item db) →
  row !! "update_time"%string = Some (PInt current_time).
Proof.
  intros Htruthy. rewrite store_content_rows by done.
  destruct (rows_of _ db) as [|r0 rows].
  - intros ->%list_elem_of_singleton. apply new_report_times.
  - intros (r & -> & _)%list_elem_of_fmap.
    apply lookup_union_Some_l, report_update_data_time.
Qed.

(** C10.  For a content item whose identifier is missing or empty
    [store_content] returns the table as it is, and the entry point
    [update_eastmoney_report] returns the world as it is: no row is
    inserted or updated, and nothing is raised. *)
Theorem store_content_without_infocode (current_time : Z) (content_item : pydict)
    (db : table) (e : env) (w : world) :
  content_item !! "infocode"%string = None
  ∨ content_item !! "infocode"%string = Some (PStr []) →
  store_content current_time content_item db = db
  ∧ Store.update_eastmoney_report e content_item w = w.
Proof.
  intros Hmissing.
  assert (Hfalsy : truthy (get content_item "infocode") = false).
  { unfold get, get_or. by destruct Hmissing as [-> | ->]. }
  unfold store_content, Store.update_eastmoney_report. by rewrite Hfalsy.
Qed.

Lemma new_report_optional (current_time : Z) (content_item : pydict)
    (k : string) (v : pyval) :
  k ∈ optional_columns → content_item !! k = Some v →
  new_report current_time content_item !! k = Some v.
Proof.
  unfold optional_columns. intros Hin Hk.
  repeat (apply elem_of_cons in Hin as [->|Hin];
          [match goal with
           | |- new_report _ _ !! ?key = _ =>
               change (new_report current_time content_item !! key)
                 with (Some (default (default PNone (new_report current_time ∅ !! key))
                               (content_item !! key)))
           end; by rewrite Hk|]).
  by apply elem_of_nil in Hin.
Qed.

Lemma matches_other (infocode other : pyval) (row : pydict) :
  other ≠ infocode → matches other row = true → matches infocode row = false.
Proof.
  unfold matches. intros Hne Hother. apply bool_decide_eq_true in Hother.
  apply bool_decide_eq_false. rewrite Hother. by intros [= ->].
Qed.

Lemma store_content_other (current_time : Z) (content_item : pydict) (db : table)
    (other : pyval) :
  other ≠ get content_item "infocode" →
  rows_of other (store_content current_time content_item db) = rows_of other db.
Proof.
  intros Hne. unfold store_content. destruct (negb _); [done|].
  destruct (report_is_exist _ _).
  - unfold update_report.
    rewrite execute_update_rows by apply report_update_data_infocode.
    rewrite <- (list_fmap_id (rows_of other db)) at 2.
    apply list_fmap_ext. intros i row Hrow.
    rewrite (matches_other _ other row Hne); [done|].
    apply (rows_of_matches other db). by eapply list_elem_of_lookup_2.
  - unfold add_report, rows_of. rewrite List.filter_app. cbn [List.filter].
    unfold matches at 2. rewrite new_report_infocode.
    rewrite bool_decide_eq_false_2; [by rewrite app_nil_r|]. by intros [= Heq].
Qed.

(** C8.  Let the item have an identifier, the table hold at most one row
    for it, and the clock not run backwards between two calls of
    [store_content] with the same item.  After each call the table has
    exactly one row for the identifier, [r1] and then [r2].  The second
    call adds no row and leaves the rows of every other identifier as they
    are.  Each call merges the item into the row: [update_time] is the
    time of the call, so it does not decrease from the first call to the
    second; the status, path, message, size and page columns that the item
    supplies are in the row; a row that was there before the first call
    keeps its other columns; and after the second call every column but
    [update_time] is as the first call left it.  When the identifier was
    new and the item supplies no status, the first call inserts the row
    with status "pending" and both time stamps set to the time of the
    call. *)
Theorem store_content_twice (t1 t2 : Z) (content_item : pydict) (db : table) :
  let infocode := get content_item "infocode" in
  let db1 := store_content t1 content_item db in
  let db2 := store_content t2 content_item db1 in
  truthy infocode = true →
  (length (rows_of infocode db) ≤ 1)%nat →
  (t1 ≤ t2)%Z →
  ∃ r1 r2,
    rows_of infocode db1 = [r1]
    ∧ rows_of infocode db2 = [r2]
    ∧ length db2 = length db1
    ∧ (∀ other, other ≠ infocode → rows_of other db2 = rows_of other db1)
    ∧ r1 !! "update_time"%string = Some (PInt t1)
    ∧ r2 !! "update_time"%string = Some (PInt t2)
    ∧ (int_column r1 "update_time" ≤ int_column r2 "update_time")%Z
    ∧ (∀ k v, k ∈ optional_columns → content_item !! k = Some v →
         r1 !! k = Some v ∧ r2 !! k = Some v)
    ∧ (∀ r0 k, rows_of infocode db = [r0] → k ≠ "update_time"%string →
         content_item !! k = None ∨ k ∉ optional_columns →
         r1 !! k = r0 !! k)
    ∧ (∀ k, k ≠ "update_time"%string → r2 !! k = r1 !! k)
    ∧ (rows_of infocode db = [] →
       content_item !! "download_status"%string = None →
       r1 !! "download_status"%string = Some (PStr (lit "pending"))
       ∧ r1 !! "create_time"%string = Some (PInt t1)).
Proof.
  intros infocode db1 db2 Htruthy Hone Htime.
  assert (Hoptional : ∀ k, k ∈ optional_columns → k ≠ "update_time"%string).
  { intros k Hk ->. unfold optional_columns in Hk.
    repeat (apply elem_of_cons in Hk as [Hk|Hk]; [done|]).
    by apply elem_of_nil in Hk. }
  assert (Hsupplied : ∀ t k v, k ∈ optional_columns → content_item !! k = Some v →
            report_update_data t content_item !! k = Some v).
  { intros t k v Hk Hv.
    by rewrite report_update_data_lookup, decide_False, decide_True by auto. }
  assert (Hrows1 : ∃ r1, rows_of infocode db1 = [r1]
            ∧ r1 !! "update_time"%string = Some (PInt t1)
            ∧ (∀ k v, k ∈ optional_columns → content_item !! k = Some v →
                 r1 !! k = Some v)
            ∧ (rows_of infocode db = [] → r1 = new_report t1 content_item)
            ∧ (∀ r0, rows_of infocode db = [r0] →
                 r1 = report_update_data t1 content_item ∪ r0)).
  { subst db1 infocode. rewrite store_content_rows by done.
    destruct (rows_of _ db) as [|r0 [|r0' rows]]; cbn [length] in Hone; [| |lia].
    - exists (new_report t1 content_item). split; [done|].
      split; [apply new_report_times|]. split; [|by split].
      intros k v. apply new_report_optional.
    - exists (report_update_data t1 content_item ∪ r0). split; [done|].
      split; [apply lookup_union_Some_l, report_update_data_time|].
      split; [|split; [done|by intros ? [= <-]]].
      intros k v Hk Hv. by apply lookup_union_Some_l, Hsupplied. }
  destruct Hrows1 as (r1 & Hrows1 & Htime1 & Hwritten1 & Hnew & Hold).
  assert (Hexists1 : report_is_exist db1 infocode = true).
  { destruct (report_is_exist db1 infocode) eqn:Hex; [done|].
    apply report_is_exist_rows in Hex. by rewrite Hex in Hrows1. }
  set (r2 := report_update_data t2 content_item ∪ r1).
  assert (Htime2 : r2 !! "update_time"%string = Some (PInt t2)).
  { apply lookup_union_Some_l, report_update_data_time. }
  exists r1, r2. split; [exact Hrows1|]. split.
  { subst db2. fold infocode in Hrows1 |- *. unfold infocode at 1.
    rewrite store_content_rows by done. fold infocode. by rewrite Hrows1. }
  split.
  { subst db2. rewrite store_content_length. fold infocode.
    by rewrite Htruthy, Hexists1. }
  split; [intros other Hother; by apply store_content_other|].
  split; [exact Htime1|]. split; [exact Htime2|]. split.
  { unfold int_column. by rewrite Htime1, Htime2. }
  split.
  { intros k v Hk Hv. split; [by apply Hwritten1|].
    by apply lookup_union_Some_l, Hsupplied. }
  split.
  { intros r0 k Hr0 Hk Hnot. rewrite (Hold r0 Hr0). apply lookup_union_r.
    rewrite report_update_data_lookup, decide_False by done.
    destruct (decide (k ∈ optional_columns)) as [Hopt|Hopt]; [|done].
    by destruct Hnot. }
  split.
  { intros k Hk. unfold r2.
    destruct (decide (k ∈ optional_columns)) as [Hopt|Hopt].
    - destruct (content_item !! k) as [v|] eqn:Hv.
      + rewrite (Hwritten1 k v Hopt Hv). by apply lookup_union_Some_l, Hsupplied.
      + apply lookup_union_r.
        by rewrite report_update_data_lookup, decide_False, decide_True.
    - apply lookup_union_r.
      by rewrite report_update_data_lookup, !decide_False. }
  intros Hnil Hstatus. rewrite (Hnew Hnil). split; [|apply new_report_times].
  rewrite new_report_status. unfold get_or. by rewrite Hstatus.
Qed.

End StoreFacts.

(** ** The callback envelope *)

Section EnvelopeFacts.
Import EastmoneyClient Envelope.








Section Unwrap.
Context {J : Type} (json_loads : str → option J).




End Unwrap.

(** A wrapped object, a body without braces, a body whose brace is not
    closed, and a substring the JSON parser rejects. *)
Example parse_jsonp_runs :
  _parse_jsonp_response Some (lit "datatable1({a:{}})") = inr (lit "{a:{}}")
  ∧ _parse_jsonp_response Some (lit "datatable1()") = inl NoJsonStart
  ∧ _parse_jsonp_response Some (lit "cb({a:{})") = inl NoJsonEnd
  ∧ _parse_jsonp_response (λ _, @None str) (lit "cb({x})") = inl JsonDecodeFailed.
Proof. repeat split; reflexivity. Qed.

End EnvelopeFacts.

(** ** The attachment fetcher and the processing of one report *)

Section FetcherFacts.
Import EastmoneySqliteStore EastmoneyClient EastmoneyCrawler Store Attempts.

Lemma retry_returns {A : Type} (attempts : nat) (f : world → (exn + A) * world)
    (w w' : world) (v : A) :
  f w = (inr v, w') → retry (S attempts) f w = (inr v, w').
Proof. intros Hf. cbn. by rewrite Hf. Qed.

Lemma retry_after_failures (e : env) (infocode : pyval) (k n : nat) (w wk : world) :
  failed_attempts e infocode k w wk →
  retry (k + n) (download_pdf_once e infocode) w
  = retry n (download_pdf_once e infocode) wk.
Proof.
  induction 1 as [w|k w w1 w2 exc Honce _ IH]; [done|].
  cbn [Nat.add retry]. by rewrite Honce.
Qed.

(** One attempt that is answered "not found" returns [None], after the
    HEAD and the GET request. *)
Lemma download_pdf_once_not_found (e : env) (infocode : pyval) (w : world)
    (head_status : Z) (head_content content : bytes) :
  let pdf_url := get_pdf_url infocode in
  http e (length (http_log w)) HEAD pdf_url = Response head_status head_content →
  http e (S (length (http_log w))) GET pdf_url = Response 404 content →
  download_pdf_once e infocode w
  = (inr None, log_request GET pdf_url (log_request HEAD pdf_url w)).
Proof.
  intros pdf_url Hhead Hget. unfold download_pdf_once, request. fold pdf_url.
  rewrite Hhead. cbn [http_log log_request].
  rewrite length_app, Nat.add_1_r, Hget. done.
Qed.

Lemma update_eastmoney_report_truthy (e : env) (report_item : pydict) (w : world) :
  truthy (get report_item "infocode") = true →
  update_eastmoney_report e report_item w
  = World (store_content (clock e (ticks w)) report_item (db w))
      (files w) (http_log w) (page_log w) (S (ticks w)).
Proof. intros Ht. unfold update_eastmoney_report. by rewrite Ht. Qed.

(** A column the item supplies is in every row of the identifier after
    [store_content]. *)
Lemma store_content_written (current_time : Z) (content_item : pydict)
    (db : table) (k : string) (v : pyval) (row : pydict) :
  truthy (get content_item "infocode") = true →
  k ∈ optional_columns → content_item !! k = Some v →
  row ∈ rows_of (get content_item "infocode")
          (store_content current_time content_item db) →
  row !! k = Some v.
Proof.
  intros Htruthy Hin Hk. rewrite store_content_rows by done.
  destruct (rows_of _ db) as [|r0 rows].
  - intros ->%list_elem_of_singleton. by apply new_report_optional.
  - intros (r & -> & _)%list_elem_of_fmap.
    apply lookup_union_Some_l. rewrite report_update_data_lookup.
    rewrite decide_False, decide_True; [done..|].
    intros ->. unfold optional_columns in Hin.
    repeat (apply elem_of_cons in Hin as [Hin|Hin]; [done|]).
    by apply elem_of_nil in Hin.
Qed.

Lemma store_content_rows_nonempty (current_time : Z) (content_item : pydict)
    (db : table) :
  truthy (get content_item "infocode") = true →
  rows_of (get content_item "infocode")
    (store_content current_time content_item db) ≠ [].
Proof.
  intros Htruthy. rewrite store_content_rows by done.
  by destruct (rows_of _ db).
Qed.

Lemma prepare_db_item_infocode (info_code : pyval) (report_data : pydict) :
  prepare_db_item info_code report_data !! "infocode"%string = Some info_code.
Proof. reflexivity. Qed.

Lemma mark_failed_lookup (msg : str) (info_code : pyval) (report_data : pydict) :
  let db_item := mark_failed msg (prepare_db_item info_code report_data) in
  get db_item "infocode" = info_code
  ∧ db_item !! "download_status"%string = Some (PStr (lit "failed"))
  ∧ db_item !! "error_message"%string = Some (PStr msg).
Proof.
  unfold mark_failed, get, get_or. cbv zeta. split; [|split].
  - by rewrite !lookup_insert_ne, prepare_db_item_infocode by done.
  - by rewrite lookup_insert_ne, lookup_insert_eq by done.
  - by rewrite lookup_insert_eq.
Qed.

(** When the fetcher returns [None] the report is stored as failed, with
    the message of the crawler. *)
Lemma process_report_returned_none (e : env) (report_data : pydict) (w w1 : world) :
  let info_code := get_or report_data "infoCode" (PStr []) in
  let db_item := mark_failed returned_none_message (prepare_db_item info_code report_data) in
  truthy info_code = true →
  get report_data "attachType" = PStr (lit "0") →
  download_pdf e info_code w = (inr None, w1) →
  _process_report e report_data w
  = (inr (Some db_item), update_eastmoney_report e db_item w1).
Proof.
  intros info_code db_item Htruthy Hattach Hdownload.
  unfold _process_report. fold info_code. rewrite Htruthy. cbn [negb].
  rewrite Hattach, bool_decide_eq_false_2 by (intros Hne; by apply Hne).
  by rewrite Hdownload.
Qed.

(** C7.  Let [k] attempts (fewer than the maximum) have failed, and let the
    next attempt be answered "not found" (status 404) on its GET request.
    Then [download_pdf] returns [None] right after that request, with no
    further attempt; and [_process_report] stores the report with status
    "failed" and a non-empty error message, having sent no other request. *)
Theorem not_found_is_terminal (e : env) (report_data : pydict) (w wk : world)
    (k : nat) (head_status : Z) (head_content content : bytes) :
  let info_code := get_or report_data "infoCode" (PStr []) in
  let pdf_url := get_pdf_url info_code in
  let w_end := log_request GET pdf_url (log_request HEAD pdf_url wk) in
  truthy info_code = true →
  get report_data "attachType" = PStr (lit "0") →
  failed_attempts e info_code k w wk →
  (k < Config.MAX_RETRIES)%nat →
  http e (length (http_log wk)) HEAD pdf_url = Response head_status head_content →
  http e (S (length (http_log wk))) GET pdf_url = Response 404 content →
  download_pdf e info_code w = (inr None, w_end)
  ∧ ∃ db_item w',
      _process_report e report_data w = (inr (Some db_item), w')
      ∧ http_log w' = http_log wk ++ [(HEAD, pdf_url); (GET, pdf_url)]
      ∧ rows_of info_code (db w') ≠ []
      ∧ ∀ row, row ∈ rows_of info_code (db w') →
          row !! "download_status"%string = Some (PStr (lit "failed"))
          ∧ ∃ msg, row !! "error_message"%string = Some (PStr msg) ∧ msg ≠ [].
Proof.
  intros info_code pdf_url w_end Htruthy Hattach Hfailed Hk Hhead Hget.
  assert (Hdownload : download_pdf e info_code w = (inr None, w_end)).
  { unfold download_pdf.
    replace Config.MAX_RETRIES with (k + S (Config.MAX_RETRIES - S k))%nat by lia.
    rewrite (retry_after_failures _ _ _ _ _ _ Hfailed).
    apply retry_returns.
    by apply (download_pdf_once_not_found _ _ _ head_status head_content content). }
  split; [exact Hdownload|].
  pose proof (mark_failed_lookup returned_none_message info_code report_data)
    as (Hid & Hstatus & Hmsg).
  set (db_item := mark_failed returned_none_message
                    (prepare_db_item info_code report_data)) in *.
  assert (Hitem : truthy (get db_item "infocode") = true) by by rewrite Hid.
  exists db_item, (update_eastmoney_report e db_item w_end).
  split; [by apply process_report_returned_none|].
  rewrite update_eastmoney_report_truthy by done. cbn [http_log db].
  split; [|split].
  - subst w_end. cbn [http_log log_request]. by rewrite <- app_assoc.
  - rewrite <- Hid. by apply store_content_rows_nonempty.
  - rewrite <- Hid. intros row Hrow. split.
    + eapply store_content_written; [exact Hitem| |exact Hstatus|exact Hrow].
      unfold optional_columns. apply elem_of_cons. right. left.
    + exists returned_none_message. split; [|done].
      eapply store_content_written; [exact Hitem| |exact Hmsg|exact Hrow].
      unfold optional_columns. do 2 (apply elem_of_cons; right). left.
Qed.

End FetcherFacts.

(** ** What the processing of a report leaves untouched *)

Section FrameFacts.
Import EastmoneySqliteStore EastmoneyClient EastmoneyCrawler Store Attempts.

Lemma only_requests_refl (w : world) : only_requests w w.
Proof. repeat split. exists []. by rewrite app_nil_r. Qed.

Lemma only_requests_trans (w1 w2 w3 : world) :
  only_requests w1 w2 → only_requests w2 w3 → only_requests w1 w3.
Proof.
  intros (Hd & Hf & Hp & Ht & l & Hl) (Hd' & Hf' & Hp' & Ht' & l' & Hl').
  repeat split; try congruence.
  exists (l ++ l'). by rewrite Hl', Hl, app_assoc.
Qed.

Lemma request_only_requests (e : env) (m : method) (url : str) (w : world) :
  only_requests w (request e m url w).2.
Proof. repeat split. by exists [(m, url)]. Qed.

Lemma download_pdf_once_only_requests (e : env) (infocode : pyval) (w : world) :
  only_requests w (download_pdf_once e infocode w).2
  ∧ (length (http_log w) < length (http_log (download_pdf_once e infocode w).2))%nat.
Proof.
  unfold download_pdf_once.
  pose proof (request_only_requests e HEAD (get_pdf_url infocode) w) as H1.
  destruct (request e HEAD (get_pdf_url infocode) w) as [head_response w1] eqn:Hr1.
  assert (Hlen1 : (length (http_log w) < length (http_log w1))%nat).
  { unfold request in Hr1. injection Hr1 as _ <-. cbn. rewrite length_app. cbn. lia. }
  destruct head_response as [head_status head_content|head_msg]; [|by split].
  pose proof (request_only_requests e GET (get_pdf_url infocode) w1) as H2.
  destruct (request e GET (get_pdf_url infocode) w1) as [response w2] eqn:Hr2.
  assert (Hlen2 : (length (http_log w1) < length (http_log w2))%nat).
  { unfold request in Hr2. injection Hr2 as _ <-. cbn. rewrite length_app. cbn. lia. }
  assert (Hboth : only_requests w w2 ∧ (length (http_log w) < length (http_log w2))%nat).
  { split; [by eapply only_requests_trans|lia]. }
  destruct response as [status_code content|msg]; [|done].
  destruct (is_success status_code); [done|].
  by destruct (status_code =? 404)%Z.
Qed.

Lemma retry_only_requests (e : env) (infocode : pyval) (attempts : nat) :
  ∀ w, only_requests w (retry attempts (download_pdf_once e infocode) w).2
       ∧ (∀ v, (retry attempts (download_pdf_once e infocode) w).1 = inr v →
            (length (http_log w)
             < length (http_log (retry attempts (download_pdf_once e infocode) w).2))%nat).
Proof.
  induction attempts as [|attempts IH]; intros w; cbn [retry].
  - split; [apply only_requests_refl|done].
  - destruct (download_pdf_once_only_requests e infocode w) as [Honce Hlen].
    destruct (download_pdf_once e infocode w) as [[exc|v] w1]; cbn [snd] in *.
    + destruct (IH w1) as [Hrest Hlen']. split.
      * by eapply only_requests_trans.
      * intros v Hv. specialize (Hlen' v Hv). lia.
    + by split.
Qed.

Lemma download_pdf_only_requests (e : env) (infocode : pyval) (w w1 : world)
    (result : exn + option bytes) :
  download_pdf e infocode w = (result, w1) →
  only_requests w w1
  ∧ (∀ v, result = inr v → (length (http_log w) < length (http_log w1))%nat).
Proof.
  unfold download_pdf. intros Hd.
  destruct (retry_only_requests e infocode Config.MAX_RETRIES w) as [Hreq Hlen].
  rewrite Hd in Hreq, Hlen. by split.
Qed.

Lemma update_eastmoney_report_page_log (e : env) (report_item : pydict) (w : world) :
  page_log (update_eastmoney_report e report_item w) = page_log w.
Proof. unfold update_eastmoney_report. by destruct (negb _). Qed.

Lemma save_pdf_file_page_log (infocode : pyval) (content : bytes) (ext : str)
    (w : world) :
  page_log (save_pdf_file infocode content ext w).2 = page_log w.
Proof.
  unfold save_pdf_file. by destruct (EastmoneyPdfStorage.store_pdf _ _ _ _).
Qed.

Lemma process_report_page_log (e : env) (report_data : pydict) (w : world) :
  page_log (_process_report e report_data w).2 = page_log w.
Proof.
  unfold _process_report.
  destruct (negb _); [done|].
  case_bool_decide; [apply update_eastmoney_report_page_log|].
  destruct (download_pdf e _ w) as [result w1] eqn:Hd.
  apply download_pdf_only_requests in Hd as [(_ & _ & Hp & _) _].
  destruct result as [exc|[[|b content]|]].
  - destruct exc; cbn [snd]; rewrite ?update_eastmoney_report_page_log; done.
  - cbn [snd]. by rewrite update_eastmoney_report_page_log.
  - pose proof (save_pdf_file_page_log
                  (get_or report_data "infoCode" (PStr [])) (b :: content)
                  EastmoneyPdfStorage.dot_pdf w1) as Hs.
    destruct (save_pdf_file _ _ _ w1) as [pdf_path w2]. cbn [snd] in *.
    rewrite update_eastmoney_report_page_log. congruence.
  - cbn [snd]. by rewrite update_eastmoney_report_page_log.
Qed.

Lemma process_reports_page_log (e : env) (reports : list pydict) :
  ∀ w, page_log (process_reports e reports w).2 = page_log w.
Proof.
  induction reports as [|report_data reports IH]; intros w; [done|].
  cbn [process_reports].
  pose proof (process_report_page_log e report_data w) as Hp.
  destruct (_process_report e report_data w) as [[exc|r] w1]; cbn [snd] in *.
  - done.
  - by rewrite IH.
Qed.

End FrameFacts.

(** ** The crawl loop *)

Section CrawlFacts.
Import EastmoneyCrawler Store.

(** With fuel for the records still allowed, the loop ends; it asks for
    consecutive pages; each page adds at least one record, so their number
    is bounded by the records still allowed; and every page but the last
    returned records. *)
Lemma crawl_loop_ends (e : env) (fuel : nat) :
  ∀ (all_reports : list pydict) (page_no : nat) (w : world),
  (max_notes ≤ fuel + length all_reports)%nat →
  ∃ all_reports' w' n,
    crawl_loop fuel e all_reports page_no w = Some (all_reports', w')
    ∧ page_log w' = page_log w ++ seq page_no n
    ∧ (n + length all_reports ≤ max_notes ∨ n = 0)%nat
    ∧ ∀ p, (page_no ≤ p)%nat → (S p < page_no + n)%nat →
        ∃ reports, fetch_report_list e p = inr reports ∧ reports ≠ [].
Proof.
  induction fuel as [|fuel IH]; intros all_reports page_no w Hfuel;
    cbn [crawl_loop]; destruct (length all_reports <? max_notes)%nat eqn:Hlt.
  - apply Nat.ltb_lt in Hlt. lia.
  - exists all_reports, w, 0%nat. rewrite app_nil_r.
    split; [done|]. split; [done|]. split; [by right|]. intros p ? ?. lia.
  - apply Nat.ltb_lt in Hlt.
    assert (Hone : ∀ w',
      page_log w' = page_log (log_page page_no w) →
      ∃ (all_reports' : list pydict) w'' n,
        Some (all_reports, w') = Some (all_reports', w'')
        ∧ page_log w'' = page_log w ++ seq page_no n
        ∧ (n + length all_reports ≤ max_notes ∨ n = 0)%nat
        ∧ ∀ p, (page_no ≤ p)%nat → (S p < page_no + n)%nat →
            ∃ reports, fetch_report_list e p = inr reports ∧ reports ≠ []).
    { intros w' Hw'. exists all_reports, w', 1%nat.
      split; [done|]. split; [by rewrite Hw'|]. split; [left; lia|].
      intros p ? ?. lia. }
    destruct (fetch_report_list e page_no) as [exc|[|report_data reports]] eqn:Hfetch;
      [by apply Hone..|].
    pose proof (process_reports_page_log e (report_data :: reports) (log_page page_no w))
      as Hpages.
    destruct (process_reports e (report_data :: reports) (log_page page_no w))
      as [[exc|] w1]; cbn [snd] in Hpages.
    + destruct (Hone w1 Hpages) as (a & w'' & n & [= <- <-] & Hlog & Hn & Hp).
      exists (all_reports ++ report_data :: reports), w1, n. by repeat split.
    + destruct (IH (all_reports ++ report_data :: reports) (S page_no) w1)
        as (all' & w' & n & Hloop & Hlog & Hn & Hp).
      { rewrite length_app. cbn [length]. lia. }
      exists all', w', (S n). split; [done|]. split; [|split].
      * rewrite Hlog, Hpages. cbn. by rewrite <- app_assoc.
      * rewrite length_app in Hn. cbn [length] in Hn. left. lia.
      * intros p Hp1 Hp2. destruct (decide (p = page_no)) as [->|Hne].
        -- by exists (report_data :: reports).
        -- apply Hp; lia.
  - exists all_reports, w, 0%nat. rewrite app_nil_r.
    split; [done|]. split; [done|]. split; [by right|]. intros p ? ?. lia.
Qed.

(** C9.  [start] returns for every listing, every attachment host and
    every state of the world.  The pages it asks for are 1, 2, ..., n, with
    n at most PAGE_SIZE * 5 = 250, a bound that does not depend on what
    the listing returns; every page before the last returned at least one
    record, so the loop stopped at the first page without records. *)
Theorem start_terminates (e : env) (days : option Z) (w : world) :
  ∃ new_reports w' n,
    start e days w = Some (new_reports, w')
    ∧ page_log w' = page_log w ++ seq 1 n
    ∧ (n ≤ 250)%nat
    ∧ (∀ p, (1 ≤ p < n)%nat →
         ∃ reports, fetch_report_list e p = inr reports ∧ reports ≠ [])
    ∧ (∀ p, (1 ≤ p ≤ n)%nat → fetch_report_list e p = inr [] → p = n).
Proof.
  destruct (crawl_loop_ends e max_notes [] 1 w) as (all' & w1 & n & Hloop & Hlog & Hn & Hp).
  { cbn [length]. lia. }
  unfold start. rewrite Hloop. cbn [mbind option_bind].
  exists (get_new_reports e (default Config.DEFAULT_DAYS days) w1).1,
         (get_new_reports e (default Config.DEFAULT_DAYS days) w1).2, n.
  assert (Hpages : ∀ p, (1 ≤ p < n)%nat →
            ∃ reports, fetch_report_list e p = inr reports ∧ reports ≠ []).
  { intros p [Hp1 Hp2]. apply Hp; lia. }
  split; [by destruct (get_new_reports _ _ _)|].
  split; [exact Hlog|]. split; [|split; [exact Hpages|]].
  - change max_notes with 250%nat in Hn. cbn [length] in Hn. lia.
  - intros p [Hp1 Hp2] Hempty.
    destruct (decide (p = n)) as [->|Hne]; [done|].
    destruct (Hpages p) as (reports & Hfetch & Hrec); [lia|]. congruence.
Qed.

End CrawlFacts.

(** ** Processing a report again *)

Section ReprocessFacts.
Import EastmoneySqliteStore EastmoneyClient EastmoneyCrawler Store Attempts Reprocess.

Lemma execute_update_lookup (infocode : pyval) (update_data : pydict) (db : table)
    (i : nat) (row : pydict) :
  db !! i = Some row →
  execute_update infocode update_data db !! i
  = Some (if matches infocode row then update_data ∪ row else row).
Proof. intros Hi. unfold execute_update. by rewrite list_lookup_fmap, Hi. Qed.

Lemma report_is_exist_lookup (infocode : pyval) (db : table) (i : nat) (row : pydict) :
  db !! i = Some row → matches infocode row = true →
  report_is_exist db infocode = true.
Proof.
  intros Hi Hm. unfold report_is_exist. apply existsb_exists. exists row.
  split; [|done]. apply list_elem_of_In. by eapply list_elem_of_lookup_2.
Qed.



End ReprocessFacts.

(** ** Runs of the store, the fetcher and the crawler *)

Section StoreRuns.
Import EastmoneySqliteStore EastmoneyClient EastmoneyCrawler Store Attempts
  Reprocess Examples.

Lemma store_content_without_infocode_witness :
  ((∅ : pydict) !! "infocode"%string = None
   ∨ (∅ : pydict) !! "infocode"%string = Some (PStr []))
  ∧ store_content 1700000000 ∅ [stored_R1] = [stored_R1]
  ∧ update_eastmoney_report not_found_env ∅ completed_world = completed_world.
Proof.
  split; [by left|].
  apply (store_content_without_infocode 1700000000 ∅ [stored_R1]
           not_found_env completed_world).
  by left.
Defined.

(** An item with an empty identifier is dropped as well. *)
Example store_content_empty_infocode :
  store_content 1700000000 {[ "infocode"%string := PStr [] ]} [] = [].
Proof. reflexivity. Qed.

Lemma store_content_twice_witness :
  let content_item : pydict := {[ "infocode"%string := PStr (lit "R1") ]} in
  let db1 := store_content 1700000000 content_item [] in
  let db2 := store_content 1700000060 content_item db1 in
  truthy (get content_item "infocode") = true
  ∧ (length (rows_of (get content_item "infocode") []) ≤ 1)%nat
  ∧ (1700000000 ≤ 1700000060)%Z
  ∧ ∃ r1 r2,
      rows_of (get content_item "infocode") db1 = [r1]
      ∧ rows_of (get content_item "infocode") db2 = [r2]
      ∧ length db2 = length db1
      ∧ r1 !! "update_time"%string = Some (PInt 1700000000)
      ∧ r2 !! "update_time"%string = Some (PInt 1700000060)
      ∧ r2 !! "create_time"%string = r1 !! "create_time"%string.
Proof.
  intros content_item db1 db2.
  split; [reflexivity|]. split; [cbn; lia|]. split; [lia|].
  destruct (store_content_twice 1700000000 1700000060 content_item [])
    as (r1 & r2 & Hrows1 & Hrows2 & Hlen & _ & Htime1 & Htime2 & _ & _ & _ & Hsame & _);
    [reflexivity|cbn; lia|lia|].
  exists r1, r2. split; [exact Hrows1|]. split; [exact Hrows2|]. split; [exact Hlen|].
  split; [exact Htime1|]. split; [exact Htime2|]. by apply Hsame.
Defined.

Lemma not_found_is_terminal_witness :
  let info_code := get_or report_R1 "infoCode" (PStr []) in
  let pdf_url := get_pdf_url info_code in
  truthy info_code = true
  ∧ get report_R1 "attachType" = PStr (lit "0")
  ∧ failed_attempts not_found_env info_code 0 empty_world empty_world
  ∧ (0 < Config.MAX_RETRIES)%nat
  ∧ download_pdf not_found_env info_code empty_world
    = (inr None, log_request GET pdf_url (log_request HEAD pdf_url empty_world)).
Proof.
  intros info_code pdf_url.
  split; [reflexivity|]. split; [reflexivity|]. split; [constructor|].
  split; [unfold Config.MAX_RETRIES; lia|].
  apply (not_found_is_terminal not_found_env report_R1 empty_world empty_world
           0 404 [] []);
    [reflexivity|reflexivity|constructor|unfold Config.MAX_RETRIES; lia
    |reflexivity|reflexivity].
Defined.

(** A host that refuses the first attempt and has no file at the second:
    the fetcher stops after the second attempt. *)
Example not_found_at_second_attempt :
  let e := {| http := λ n _ _, if (n <? 2)%nat then Response 500 [] else Response 404 [];
              fetch_report_list := λ _, inr [];
              clock := λ _, 0%Z;
              send_report_list := λ _, true;
              posix := true |} in
  (λ r, (r.1, length (http_log r.2))) (download_pdf e (PStr (lit "R1")) empty_world)
  = (inr None, 4%nat).
Proof. reflexivity. Qed.

(** A host that always fails: after the third attempt [RetryError] leaves
    [_process_report], and nothing is stored. *)
Example download_always_failing :
  let e := {| http := λ _ _ _, Response 500 [];
              fetch_report_list := λ _, inr [];
              clock := λ _, 0%Z;
              send_report_list := λ _, true;
              posix := true |} in
  (λ r, (r.1, length (http_log r.2), db r.2)) (_process_report e report_R1 empty_world)
  = (inl RetryError, 6%nat, []).
Proof. reflexivity. Qed.




Example reprocessing_marks_failed :
  (λ w', (length (http_log w'),
          (λ row : pydict, row !! "download_status"%string) <$> db w'))
    (_process_report not_found_env report_R1 completed_world).2
  = (2%nat, [Some (PStr (lit "failed"))]).
Proof. vm_compute. reflexivity. Qed.

End StoreRuns.

(** * Further properties of the code *)

(** ** The retention resolver and the attachment storage *)

Section RetentionMore.
Import Os EastmoneyPdfStorage Retention.





(** X3.  The resolver with the empty selection deletes every ".pdf" file of the
    holding directory, keeps its other files and the whole target
    directory, returns the empty dict, and doing it again changes
    nothing. *)
Theorem move_to_target_nil_idempotent (posix : bool) (f : fs) :
  let f' := (move_to_target posix [] f).2 in
  move_to_target posix [] f = (inr ∅, f')
  ∧ target_dir f' = target_dir f
  ∧ (∀ k, save_dir f' !! k = if endswith dot_pdf k then None else save_dir f !! k)
  ∧ move_to_target posix [] f' = (inr ∅, f').
Proof.
  cbv zeta. rewrite !move_to_target_nil. cbn [snd save_dir target_dir].
  split; [done|]. split; [done|]. split; [apply without_pdfs_lookup|].
  by rewrite without_pdfs_idemp.
Qed.


End RetentionMore.

(** ** The reply parsers *)

Section ParsersMore.
Import EastmoneyFeishuBot SelectionGrammar TimedFeishuListener.
Context `{UnicodeData}.

Lemma index_all_offered (offered : list str) (indices : list Z)
    (selected : list str) (x : str) :
  index_all offered indices = Some selected → x ∈ selected → x ∈ offered.
Proof.
  unfold index_all. intros Hsel Hx. apply mapM_Some in Hsel.
  apply list_elem_of_lookup in Hx as [i Hi].
  destruct (Forall2_lookup_r _ _ _ _ _ Hsel Hi) as (idx & _ & Hlook).
  destruct (idx <? 0)%Z; by eapply list_elem_of_lookup_2.
Qed.

(** X5.  The bot's parser never selects an identifier that was not offered,
    whatever the reply. *)
Theorem process_user_selection_offered (text : str) (offered : list str) (x : str) :
  x ∈ process_user_selection text offered → x ∈ offered.
Proof.
  unfold process_user_selection. cbv zeta.
  destruct (streq _ _ || streq _ _); [done|].
  destruct (streq _ _ || streq _ _ || streq _ _); [by intros ?%elem_of_nil|].
  destruct (streq _ _ || streq _ _); [by intros ?%elem_of_nil|].
  unfold parse_indices. cbv zeta.
  destruct (parse_parts _ _ _) as [indices|]; cbn [mbind option_bind];
    [|by intros ?%elem_of_nil].
  destruct (index_all offered indices) as [selected|] eqn:Hsel;
    [|by intros ?%elem_of_nil].
  by apply index_all_offered with indices.
Qed.

Lemma parse_parts_rejected (n : nat) (parts : list str) (tok : str) :
  ∀ acc : list Z,
  tok ∈ parts → isdigit (strip tok) = true → int (strip tok) = None →
  EastmoneyFeishuBot.parse_parts n acc parts = None.
Proof.
  induction parts as [|part parts IH]; intros acc Hin Hd Hi.
  - by apply elem_of_nil in Hin.
  - cbn [EastmoneyFeishuBot.parse_parts].
    destruct (parse_part n acc part) as [acc'|] eqn:Hpart; [|done].
    cbn [mbind option_bind].
    apply elem_of_cons in Hin as [<-|Hin]; [|by apply IH].
    by rewrite (parse_part_rejected n acc tok Hd Hi) in Hpart.
Qed.

(** X6.  One comma-separated token that is made of digits but is no numeral
    for [int] makes the bot's parser return the empty selection, whatever the
    other tokens select. *)
Theorem process_user_selection_rejected_digit (text : str) (offered : list str)
    (tok : str) :
  is_command (lower (strip text)) = false →
  tok ∈ split_commas (lower (strip text)) →
  isdigit (strip tok) = true → int (strip tok) = None →
  process_user_selection text offered = [].
Proof.
  intros Hc Hin Hd Hi. rewrite process_user_selection_not_command by done.
  unfold parse_indices, fullwidth_comma, comma.
  rewrite split_replace_comma, (parse_parts_rejected _ _ tok [] Hin Hd Hi). done.
Qed.

Lemma findall_digits_nil (text : str) : ∀ cur : str,
  findall_digits cur text = []
  ↔ cur = [] ∧ Forall (λ c, is_decimal c = false) text.
Proof.
  induction text as [|c text IH]; intros cur; cbn [findall_digits].
  - destruct cur; split; [done|by intros [? _]|done|by intros [? _]].
  - destruct (is_decimal c) eqn:Hc.
    + rewrite IH. split; [by intros [? _]|].
      intros [_ Hall]. apply Forall_cons in Hall as [Hc' _]. congruence.
    + destruct cur as [|d cur].
      * rewrite IH. split; intros [_ Hall]; (split; [done|]).
        -- by constructor.
        -- by apply Forall_cons in Hall as [_ ?].
      * split; [done|by intros [? _]].
Qed.

(** X7.  The listener takes a reply for unparseable exactly when it is neither
    one of its keep-all or delete-all tokens nor holds a decimal digit;
    and a list of numbers it returns is never empty. *)
Theorem parse_user_selection_None (text : str) :
  (parse_user_selection text = None
   ↔ (lower (strip text) ∉ [keep_all_cn; lit "all"; keep_all_short_cn])
     ∧ (lower (strip text) ∉ [delete_all_cn; lit "delete"; lit "delete all"])
     ∧ Forall (λ c, is_decimal c = false) (lower (strip text)))
  ∧ parse_user_selection text ≠ Some (SelNumbers []).
Proof.
  unfold parse_user_selection. cbv zeta.
  case_bool_decide as Hkeep; [split; [split; [done|by intros [? _]]|done]|].
  case_bool_decide as Hdel; [split; [split; [done|by intros (_ & ? & _)]|done]|].
  pose proof (findall_digits_nil (lower (strip text)) []) as Hnil.
  destruct (findall_digits [] (lower (strip text))) as [|run runs].
  - split; [|done]. split; [|done]. intros _. split; [done|]. split; [done|].
    by apply Hnil.
  - split; [|done]. split; [done|]. intros (_ & _ & Hall).
    discriminate (proj2 Hnil (conj eq_refl Hall)).
Qed.

Lemma cli_parse_parts_tokens (n : nat) (parts : list str) : ∀ acc : list Z,
  forallb (λ tok, implb (isdigit (strip tok))
                    (bool_decide (is_Some (int (strip tok))))) parts = true →
  ProcessSelection.parse_parts n acc parts
  = Some (acc ++ List.filter (in_range n) (omap token_index parts)).
Proof.
  induction parts as [|tok parts IH]; intros acc Hok.
  - cbn. by rewrite app_nil_r.
  - cbn [forallb] in Hok. apply andb_true_iff in Hok as [Htok Hrest].
    change (omap token_index (tok :: parts))
      with (match token_index tok with
            | Some y => y :: omap token_index parts
            | None => omap token_index parts
            end).
    assert (Htk : token_index tok
                  = if isdigit (strip tok) then int (strip tok) else None) by done.
    rewrite Htk. cbn [ProcessSelection.parse_parts]. cbv zeta.
    destruct (isdigit (strip tok)) eqn:Hd; cbn [implb] in Htok.
    + apply bool_decide_eq_true in Htok as [v Hv]. rewrite Hv.
      cbn [mbind option_bind]. fold (in_range n v).
      destruct (in_range n v) eqn:Hr; cbn [List.filter];
        rewrite (IH _ Hrest), ?Hr; [|done].
      by rewrite <- app_assoc.
    + by rewrite (IH _ Hrest).
Qed.

(** X8.  On a reply that is no literal token of either parser, and whose
    all-digit tokens are numerals, the command-line parser, once the
    prompt is confirmed, passes to the resolver the selection the bot's
    parser returns. *)
Theorem process_selection_agrees (text : str) (reports : list str) :
  reports ≠ [] →
  is_command (lower (strip text)) = false →
  lower (strip text) ∉ [lit "all"; keep_all_short_cn; keep_all_cn;
                         lit "delete"; delete_all_cn; lit "delete all"] →
  digits_are_decimal (lower (strip text)) = true →
  ProcessSelection.process_selection text reports true
  = inr (Some (process_user_selection text reports)).
Proof.
  intros Hreports Hc Hcli Hd.
  rewrite process_user_selection_not_command, parse_indices_grammar by done.
  unfold ProcessSelection.process_selection, ProcessSelection.selected_indices.
  cbv zeta. destruct reports as [|r reports]; [done|].
  rewrite bool_decide_eq_false_2.
  2:{ intros Hin. apply Hcli.
      repeat (apply elem_of_cons in Hin as [->|Hin]; [repeat (first [left|right])|]).
      by apply elem_of_nil in Hin. }
  rewrite bool_decide_eq_false_2.
  2:{ intros Hin. apply Hcli.
      repeat (apply elem_of_cons in Hin as [->|Hin]; [repeat (first [left|right])|]).
      by apply elem_of_nil in Hin. }
  unfold fullwidth_comma, comma.
  rewrite split_replace_comma, (cli_parse_parts_tokens _ _ [] Hd). cbn [app].
  unfold grammar_selection. fold (indices (length (r :: reports)) (lower (strip text))).
  pose proof (index_all_in_range (r :: reports) _
                (indices_in_range (length (r :: reports)) (lower (strip text)))) as Hidx.
  destruct (indices (length (r :: reports)) (lower (strip text))) as [|i idxs]; [done|].
  by rewrite Hidx.
Qed.

Lemma int_digits_decimal (run : str) : ∀ acc : Z,
  (0 ≤ acc)%Z → Forall (λ c, is_decimal c = true) run →
  ∃ z, int_digits acc run = Some z ∧ (acc ≤ z)%Z.
Proof.
  induction run as [|c run IH]; intros acc Hacc Hrun; [by exists acc|].
  apply Forall_cons in Hrun as [Hc Hrun]. cbn [int_digits].
  unfold is_decimal in Hc. destruct (char_decimal c) as [d|]; [|done].
  destruct (IH (10 * acc + Z.of_N d)%Z) as (z & -> & Hz); [lia|done|].
  exists z. split; [done|lia].
Qed.

Lemma findall_digits_runs (text : str) : ∀ cur : str,
  Forall (λ c, is_decimal c = true) cur →
  Forall (λ run, run ≠ [] ∧ Forall (λ c, is_decimal c = true) run
                 ∧ (length run ≤ length cur + length text)%nat)
    (findall_digits cur text).
Proof.
  assert (Hrev : ∀ (cur : str) (n : nat), cur ≠ [] →
            Forall (λ c, is_decimal c = true) cur →
            reverse cur ≠ [] ∧ Forall (λ c, is_decimal c = true) (reverse cur)
            ∧ (length (reverse cur) ≤ length cur + n)%nat).
  { intros cur n Hne Hcur. split; [|split; [by apply Forall_reverse|]].
    - intros Hnil. apply Hne. by rewrite <- (reverse_involutive cur), Hnil.
    - rewrite length_reverse. lia. }
  induction text as [|c text IH]; intros cur Hcur; cbn [findall_digits].
  - destruct cur as [|d cur]; [done|]. by constructor; [apply Hrev|].
  - destruct (is_decimal c) eqn:Hc.
    + eapply Forall_impl; [apply IH; by constructor|].
      intros run (Hne & Hdec & Hlen). cbn [length] in *.
      split; [done|]. split; [done|lia].
    + assert (Hrest : Forall (λ run, run ≠ [] ∧ Forall (λ c, is_decimal c = true) run
                         ∧ (length run ≤ length cur + length (c :: text))%nat)
                        (findall_digits [] text)).
      { eapply Forall_impl; [by apply IH|].
        intros run (Hne & Hdec & Hlen). cbn [length] in *.
        split; [done|]. split; [done|lia]. }
      destruct cur as [|d cur]; [exact Hrest|].
      constructor; [by apply Hrev|exact Hrest].
Qed.

(** X9.  The listener reads every maximal run of decimal digits of the
    reply as a number: [int] raises on none of them, no number is negative
    (a sign before the digits is dropped), and there are as many numbers as
    runs.  The reply is taken to be no longer than 4300 characters, the
    number of digits CPython converts by default. *)
Theorem parse_user_selection_numbers (text : str) (l : list Z) :
  (length (lower (strip text)) ≤ 4300)%nat →
  parse_user_selection text = Some (SelNumbers l) →
  Forall2 (λ run z, run ≠ [] ∧ int run = Some z ∧ (0 ≤ z)%Z)
    (findall_digits [] (lower (strip text))) l.
Proof.
  intros Hshort. unfold parse_user_selection. cbv zeta.
  case_bool_decide; [done|]. case_bool_decide; [done|].
  pose proof (findall_digits_runs (lower (strip text)) [] (Forall_nil_2 _)) as Hruns.
  destruct (findall_digits [] (lower (strip text))) as [|run runs] eqn:Hfind; [done|].
  intros [= <-]. change (Forall2 (λ run z, run ≠ [] ∧ int run = Some z ∧ (0 ≤ z)%Z)
            (run :: runs) (int_run <$> run :: runs)).
  apply Forall2_fmap_r, Forall_Forall2_diag.
  eapply Forall_impl; [exact Hruns|]. intros r (Hne & Hdec & Hlen).
  split; [done|]. unfold int_run, int.
  destruct (int_digits_decimal r 0%Z) as (z & Hz & Hpos); [done|done|].
  destruct r as [|c r]; [done|].
  replace (max_str_digits <? length (c :: r))%nat with false.
  - by rewrite Hz.
  - symmetry. apply Nat.ltb_ge. unfold max_str_digits. cbn [length] in *. lia.
Qed.

End ParsersMore.

(** ** Runs of the parsers *)

Section SuperscriptRuns.
Import EastmoneyFeishuBot SelectionGrammar TimedFeishuListener Examples.
#[local] Existing Instance superscript_tables.

Lemma process_user_selection_rejected_digit_witness :
  let text : str := [49; 44; 178] in   (* "1," and a superscript two *)
  is_command (lower (strip text)) = false
  ∧ [178] ∈ split_commas (lower (strip text))
  ∧ isdigit (strip [178]) = true
  ∧ int (strip [178]) = None
  ∧ process_user_selection text offered3 = [].
Proof.
  assert (Hin : [178] ∈ split_commas (lower (strip [49; 44; 178]))).
  { apply list_elem_of_In. vm_compute. auto. }
  cbv zeta. split; [reflexivity|]. split; [exact Hin|].
  split; [reflexivity|]. split; [reflexivity|].
  apply (process_user_selection_rejected_digit [49; 44; 178] offered3 [178]);
    [reflexivity|exact Hin|reflexivity|reflexivity].
Defined.

End SuperscriptRuns.

Section ParsersMoreRuns.
Import EastmoneyFeishuBot SelectionGrammar TimedFeishuListener Examples.
#[local] Existing Instance ascii_tables.

Lemma process_user_selection_offered_witness :
  lit "B2" ∈ process_user_selection (lit "2") offered3 ∧ lit "B2" ∈ offered3.
Proof.
  assert (Hsel : lit "B2" ∈ process_user_selection (lit "2") offered3).
  { apply list_elem_of_In. vm_compute. auto. }
  split; [exact Hsel|].
  exact (process_user_selection_offered (lit "2") offered3 (lit "B2") Hsel).
Defined.

Lemma parse_user_selection_numbers_witness :
  (length (lower (strip (lit "3, 1-2"))) ≤ 4300)%nat
  ∧ parse_user_selection (lit "3, 1-2") = Some (SelNumbers [3; 1; 2]%Z)
  ∧ Forall2 (λ run z, run ≠ [] ∧ int run = Some z ∧ (0 ≤ z)%Z)
      (findall_digits [] (lower (strip (lit "3, 1-2")))) [3; 1; 2]%Z.
Proof.
  assert (Hlen : (length (lower (strip (lit "3, 1-2"))) ≤ 4300)%nat).
  { vm_compute. lia. }
  split; [exact Hlen|]. split; [reflexivity|].
  apply (parse_user_selection_numbers (lit "3, 1-2") [3; 1; 2]%Z Hlen). reflexivity.
Defined.

Lemma process_selection_agrees_witness :
  offered3 ≠ []
  ∧ is_command (lower (strip (lit "2,1"))) = false
  ∧ digits_are_decimal (lower (strip (lit "2,1"))) = true
  ∧ ProcessSelection.process_selection (lit "2,1") offered3 true
    = inr (Some [lit "B2"; lit "A1"]).
Proof.
  split; [discriminate|]. split; [reflexivity|]. split; [reflexivity|].
  rewrite (process_selection_agrees (lit "2,1") offered3);
    [reflexivity|discriminate|reflexivity| |reflexivity].
  apply (bool_decide_unpack _). vm_compute. exact I.
Defined.

End ParsersMoreRuns.

(** ** Runs of the storage *)

Section RetentionMoreRuns.
Import Os EastmoneyPdfStorage Retention.


End RetentionMoreRuns.

(** ** The table of reports *)

Section StoreMore.
Import EastmoneySqliteStore.

Lemma store_content_unique (current_time : Z) (content_item : pydict) (db : table) :
  (∀ infocode, (length (rows_of infocode db) ≤ 1)%nat) →
  ∀ infocode,
    (length (rows_of infocode (store_content current_time content_item db)) ≤ 1)%nat.
Proof.
  intros Hunique infocode.
  destruct (decide (infocode = get content_item "infocode")) as [->|Hne].
  - destruct (truthy (get content_item "infocode")) eqn:Htruthy.
    + rewrite store_content_rows by done.
      pose proof (Hunique (get content_item "infocode")) as Hone.
      destruct (rows_of _ db) as [|row rows]; [done|]. by rewrite length_fmap.
    + unfold store_content. rewrite Htruthy. apply Hunique.
  - rewrite store_content_other by done. apply Hunique.
Qed.

(** X10.  [store_content] touches the rows of the item's identifier only:
    the rows of every other identifier are as they were; and a table with
    at most one row per identifier is one afterwards. *)
Theorem store_content_keeps_identifiers (current_time : Z) (content_item : pydict)
    (db : table) :
  (∀ other, other ≠ get content_item "infocode" →
     rows_of other (store_content current_time content_item db) = rows_of other db)
  ∧ ((∀ infocode, (length (rows_of infocode db) ≤ 1)%nat) →
     ∀ infocode,
       (length (rows_of infocode (store_content current_time content_item db)) ≤ 1)%nat).
Proof.
  split; [intros other; apply store_content_other|apply store_content_unique].
Qed.

(** X11.  On a row of an identifier that is already stored,
    [store_content] writes the time of the call into [update_time] and the
    status, path, message, size and page columns the item supplies, and
    nothing else: the title and the other descriptive columns of the item
    are not written, [create_time] stays, and no row is added. *)
Theorem store_content_existing (current_time : Z) (content_item : pydict)
    (db : table) (i : nat) (row : pydict) :
  truthy (get content_item "infocode") = true →
  db !! i = Some row →
  matches (get content_item "infocode") row = true →
  length (store_content current_time content_item db) = length db
  ∧ ∃ row',
      store_content current_time content_item db !! i = Some row'
      ∧ row' !! "update_time"%string = Some (PInt current_time)
      ∧ (∀ k, k ∈ optional_columns →
           row' !! k = match content_item !! k with
                       | Some v => Some v
                       | None => row !! k
                       end)
      ∧ (∀ k, k ≠ "update_time"%string → k ∉ optional_columns →
           row' !! k = row !! k).
Proof.
  intros Htruthy Hrow Hmatch.
  pose proof (report_is_exist_lookup _ _ _ _ Hrow Hmatch) as Hexists.
  unfold store_content. rewrite Htruthy, Hexists. cbn [negb]. unfold update_report.
  split; [apply execute_update_length|].
  exists (report_update_data current_time content_item ∪ row).
  rewrite (execute_update_lookup _ _ _ _ _ Hrow), Hmatch.
  split; [done|]. split; [|split].
  - apply lookup_union_Some_l, report_update_data_time.
  - intros k Hk.
    assert (Hut : k ≠ "update_time"%string).
    { intros ->. unfold optional_columns in Hk.
      repeat (apply elem_of_cons in Hk as [Hk|Hk]; [done|]).
      by apply elem_of_nil in Hk. }
    pose proof (report_update_data_lookup current_time content_item k) as Hlook.
    rewrite decide_False, decide_True in Hlook by done.
    destruct (content_item !! k) as [v|] eqn:Hitem.
    + by apply lookup_union_Some_l.
    + by apply lookup_union_r.
  - intros k Hut Hk. apply lookup_union_r.
    by rewrite report_update_data_lookup, !decide_False.
Qed.

Lemma update_pdf_status_data (current_time : Z) (status pdf_path error_message : str)
    (k : string) :
  let update_data : pydict :=
    <["update_time"%string := PInt current_time]>
      {[ "download_status"%string := PStr status ]} in
  let update_data :=
    if truthy (PStr pdf_path) then <["pdf_path"%string := PStr pdf_path]> update_data
    else update_data in
  let update_data :=
    if truthy (PStr error_message)
    then <["error_message"%string := PStr error_message]> update_data
    else update_data in
  update_data !! k
  = if decide (k = "error_message"%string)
    then (match error_message with [] => None | _ => Some (PStr error_message) end)
    else if decide (k = "pdf_path"%string)
    then (match pdf_path with [] => None | _ => Some (PStr pdf_path) end)
    else if decide (k = "update_time"%string) then Some (PInt current_time)
    else if decide (k = "download_status"%string) then Some (PStr status)
    else None.
Proof.
  cbv zeta.
  assert (Hbase : ∀ k,
    (<["update_time"%string := PInt current_time]>
       ({[ "download_status"%string := PStr status ]} : pydict)) !! k
    = if decide (k = "update_time"%string) then Some (PInt current_time)
      else if decide (k = "download_status"%string) then Some (PStr status)
      else None).
  { intros k'. destruct (decide (k' = "update_time"%string)) as [->|Hut].
    - by rewrite lookup_insert_eq.
    - rewrite lookup_insert_ne by done.
      destruct (decide (k' = "download_status"%string)) as [->|Hds].
      + by rewrite lookup_singleton_eq.
      + by rewrite lookup_singleton_ne. }
  destruct (decide (k = "error_message"%string)) as [->|Hem].
  - destruct error_message as [|c m]; cbn [truthy].
    + destruct pdf_path as [|c' p']; cbn [truthy];
        [|rewrite lookup_insert_ne by done]; by rewrite Hbase.
    + by rewrite lookup_insert_eq.
  - assert (Hskip : ∀ m : pydict,
              (if truthy (PStr error_message)
               then <["error_message"%string := PStr error_message]> m else m) !! k
              = m !! k).
    { intros m. destruct (truthy _); [by rewrite lookup_insert_ne|done]. }
    rewrite Hskip.
    destruct (decide (k = "pdf_path"%string)) as [->|Hpp].
    + destruct pdf_path as [|c p]; cbn [truthy].
      * by rewrite Hbase.
      * by rewrite lookup_insert_eq.
    + destruct (truthy (PStr pdf_path)); [rewrite lookup_insert_ne by done|];
        apply Hbase.
Qed.

(** X12.  [update_pdf_status] leaves the rows of other identifiers and
    the number of rows as they are.  In a row of the identifier it sets the
    status and [update_time]; it sets the path and the error message only
    when the argument is not empty, so a call with the default arguments
    keeps the path and the message the row had; every other column is
    kept. *)
Theorem update_pdf_status_row (current_time : Z) (infocode : pyval)
    (status pdf_path error_message : str) (db : table) (i : nat) (row : pydict) :
  db !! i = Some row →
  let db' := update_pdf_status current_time infocode status pdf_path error_message db in
  length db' = length db
  ∧ ∃ row',
      db' !! i = Some row'
      ∧ (matches infocode row = false → row' = row)
      ∧ (matches infocode row = true →
         row' !! "download_status"%string = Some (PStr status)
         ∧ row' !! "update_time"%string = Some (PInt current_time)
         ∧ row' !! "pdf_path"%string
           = match pdf_path with [] => row !! "pdf_path"%string | _ => Some (PStr pdf_path) end
         ∧ row' !! "error_message"%string
           = match error_message with
             | [] => row !! "error_message"%string
             | _ => Some (PStr error_message)
             end
         ∧ ∀ k, k ∉ ["download_status"; "update_time"; "pdf_path"; "error_message"]%string →
             row' !! k = row !! k).
Proof.
  intros Hrow. cbv zeta. unfold update_pdf_status. cbv zeta.
  pose proof (update_pdf_status_data current_time status pdf_path error_message)
    as Hdata. cbv zeta in Hdata.
  set (update_data := if truthy (PStr error_message) then _ else _) in *.
  split; [apply execute_update_length|].
  rewrite (execute_update_lookup _ _ _ _ _ Hrow).
  eexists. split; [done|]. destruct (matches infocode row); [|by split].
  split; [done|]. intros _. split; [|split; [|split; [|split]]].
  - apply lookup_union_Some_l. by rewrite Hdata.
  - apply lookup_union_Some_l. by rewrite Hdata.
  - destruct pdf_path as [|c p].
    + apply lookup_union_r. by rewrite Hdata.
    + apply lookup_union_Some_l. by rewrite Hdata.
  - destruct error_message as [|c m].
    + apply lookup_union_r. by rewrite Hdata.
    + apply lookup_union_Some_l. by rewrite Hdata.
  - intros k Hk. apply lookup_union_r. rewrite Hdata.
    rewrite !decide_False; [done|..]; intros ->; apply Hk;
      repeat (first [by left|right]).
Qed.









End StoreMore.

(** ** Runs of the table *)

Section StoreMoreRuns.
Import EastmoneySqliteStore Examples.

Lemma store_content_existing_witness :
  let content_item : pydict :=
    <["report_title"%string := PStr (lit "Renamed")]>
      (<["download_status"%string := PStr (lit "failed")]>
         {[ "infocode"%string := PStr (lit "R1") ]}) in
  truthy (get content_item "infocode") = true
  ∧ [stored_R1] !! 0%nat = Some stored_R1
  ∧ matches (get content_item "infocode") stored_R1 = true
  ∧ ∃ row',
      store_content 1700000060 content_item [stored_R1] !! 0%nat = Some row'
      ∧ row' !! "download_status"%string = Some (PStr (lit "failed"))
      ∧ row' !! "report_title"%string = Some (PStr (lit "Outlook"))
      ∧ row' !! "create_time"%string = Some (PInt 1700000000).
Proof.
  cbv zeta. split; [reflexivity|]. split; [reflexivity|]. split; [reflexivity|].
  destruct (store_content_existing 1700000060
              (<["report_title"%string := PStr (lit "Renamed")]>
                 (<["download_status"%string := PStr (lit "failed")]>
                    {[ "infocode"%string := PStr (lit "R1") ]}))
              [stored_R1] 0 stored_R1)
    as (_ & row' & Hrow' & _ & Hopt & Hother); [reflexivity|reflexivity|reflexivity|].
  exists row'. split; [exact Hrow'|]. split; [|split].
  - rewrite Hopt; [reflexivity|]. unfold optional_columns. right. left.
  - rewrite Hother; [reflexivity|discriminate|].
    apply (bool_decide_unpack _). vm_compute. exact I.
  - rewrite Hother; [reflexivity|discriminate|].
    apply (bool_decide_unpack _). vm_compute. exact I.
Defined.

Lemma update_pdf_status_row_witness :
  let db' := update_pdf_status 1700000060 (PStr (lit "R1")) (lit "failed") [] []
               [stored_R1] in
  [stored_R1] !! 0%nat = Some stored_R1
  ∧ length db' = 1%nat
  ∧ ∃ row',
      db' !! 0%nat = Some row'
      ∧ row' !! "download_status"%string = Some (PStr (lit "failed"))
      ∧ row' !! "pdf_path"%string = stored_R1 !! "pdf_path"%string.
Proof.
  cbv zeta. split; [reflexivity|].
  destruct (update_pdf_status_row 1700000060 (PStr (lit "R1")) (lit "failed") [] []
              [stored_R1] 0 stored_R1 eq_refl)
    as (Hlen & row' & Hrow' & _ & Hset).
  split; [exact Hlen|]. exists row'. split; [exact Hrow'|].
  destruct (Hset eq_refl) as (Hstatus & _ & Hpath & _). by split.
Defined.

End StoreMoreRuns.

(** ** The attachment fetcher and the crawler *)

Section FetcherMore.
Import EastmoneySqliteStore EastmoneyClient EastmoneyCrawler Store Attempts Reprocess
  Keeps.

Lemma download_pdf_once_requests (e : env) (infocode : pyval) (w : world) :
  ∃ l, http_log (download_pdf_once e infocode w).2 = http_log w ++ l
       ∧ Forall (λ q : method * str, q.2 = get_pdf_url infocode) l
       ∧ (1 ≤ length l ≤ 2)%nat.
Proof.
  unfold download_pdf_once, request. cbv zeta.
  assert (Hone : ∃ l, http_log (log_request HEAD (get_pdf_url infocode) w) = http_log w ++ l
                      ∧ Forall (λ q : method * str, q.2 = get_pdf_url infocode) l
                      ∧ (1 ≤ length l ≤ 2)%nat).
  { exists [(HEAD, get_pdf_url infocode)]. split; [done|].
    split; [by repeat constructor|cbn; lia]. }
  assert (Htwo : ∃ l, http_log (log_request GET (get_pdf_url infocode)
                                  (log_request HEAD (get_pdf_url infocode) w))
                      = http_log w ++ l
                      ∧ Forall (λ q : method * str, q.2 = get_pdf_url infocode) l
                      ∧ (1 ≤ length l ≤ 2)%nat).
  { exists [(HEAD, get_pdf_url infocode); (GET, get_pdf_url infocode)].
    split; [cbn [log_request http_log]; by rewrite <- app_assoc|].
    split; [by repeat constructor|cbn; lia]. }
  destruct (http e (length (http_log w)) HEAD (get_pdf_url infocode))
    as [head_status head_content|head_msg]; [|exact Hone].
  destruct (http e _ GET (get_pdf_url infocode)) as [status_code content|msg];
    [|exact Htwo].
  destruct (is_success status_code); [exact Htwo|].
  by destruct (status_code =? 404)%Z.
Qed.

(** The requests of a retried download: at most two per attempt, all to
    the URL of the attachment; an exception that leaves [retry] is
    [RetryError], after every attempt was made. *)
Lemma retry_requests (e : env) (infocode : pyval) (attempts : nat) : ∀ w,
  ∃ l, http_log (retry attempts (download_pdf_once e infocode) w).2 = http_log w ++ l
       ∧ Forall (λ q : method * str, q.2 = get_pdf_url infocode) l
       ∧ (length l ≤ 2 * attempts)%nat
       ∧ match (retry attempts (download_pdf_once e infocode) w).1 with
         | inl exc => exc = RetryError ∧ (attempts ≤ length l)%nat
         | inr _ => (1 ≤ length l)%nat
         end.
Proof.
  induction attempts as [|attempts IH]; intros w; cbn [retry].
  - exists []. rewrite app_nil_r. cbn. split; [done|]. split; [done|]. split; [lia|].
    split; [done|lia].
  - destruct (download_pdf_once_requests e infocode w) as (l1 & Hl1 & Hu1 & Hlen1).
    destruct (download_pdf_once e infocode w) as [[exc|v] w1]; cbn [fst snd] in *.
    + destruct (IH w1) as (l2 & Hl2 & Hu2 & Hlen2 & Hres).
      exists (l1 ++ l2). rewrite Hl2, Hl1, app_assoc. split; [done|].
      split; [by apply Forall_app|]. rewrite length_app. split; [lia|].
      destruct (retry attempts _ w1).1; [destruct Hres; split; [done|lia]|lia].
    + exists l1. split; [done|]. split; [done|]. split; lia.
Qed.

(** X14.  [download_pdf] raises no [PDFDownloadError] to its caller: it
    returns, or raises [RetryError] after at least [MAX_RETRIES] requests.
    It sends between one and [2 * MAX_RETRIES] requests, all to the URL of
    the attachment, and changes neither the table nor the files. *)
Theorem download_pdf_outcomes (e : env) (infocode : pyval) (w : world) :
  let r := download_pdf e infocode w in
  db r.2 = db w ∧ files r.2 = files w
  ∧ ∃ l, http_log r.2 = http_log w ++ l
         ∧ Forall (λ q : method * str, q.2 = get_pdf_url infocode) l
         ∧ (1 ≤ length l ≤ 2 * Config.MAX_RETRIES)%nat
         ∧ match r.1 with
           | inl exc => exc = RetryError ∧ (Config.MAX_RETRIES ≤ length l)%nat
           | inr _ => True
           end.
Proof.
  cbv zeta.
  destruct (download_pdf_only_requests e infocode w (download_pdf e infocode w).2
              (download_pdf e infocode w).1) as [(Hdb & Hfiles & _) _];
    [by destruct (download_pdf e infocode w)|].
  split; [done|]. split; [done|]. unfold download_pdf.
  destruct (retry_requests e infocode Config.MAX_RETRIES w) as (l & Hl & Hu & Hlen & Hres).
  exists l. split; [done|]. split; [done|].
  destruct (retry Config.MAX_RETRIES _ w).1 as [exc|v].
  - destruct Hres as [-> Hmin]. change Config.MAX_RETRIES with 3%nat in *.
    split; [lia|done].
  - split; [lia|done].
Qed.

Lemma update_eastmoney_report_frame (e : env) (report_item : pydict) (w : world) :
  http_log (update_eastmoney_report e report_item w) = http_log w
  ∧ files (update_eastmoney_report e report_item w) = files w.
Proof. unfold update_eastmoney_report. by destruct (negb _). Qed.


Lemma no_pdf_item_infocode (info_code : pyval) (report_data : pydict) :
  get (<["error_message"%string := PStr no_pdf_message]>
         (<["download_status"%string := PStr (lit "no_pdf")]>
            (prepare_db_item info_code report_data))) "infocode" = info_code.
Proof.
  unfold get, get_or.
  by rewrite !lookup_insert_ne, prepare_db_item_infocode.
Qed.

(** X15.  A report without an attachment is stored with status "no_pdf"
    and the message "No PDF attachment", whatever was stored for its
    identifier; no request is sent and no file is written. *)
Theorem process_report_no_attachment (e : env) (report_data : pydict) (w : world) :
  let info_code := get_or report_data "infoCode" (PStr []) in
  truthy info_code = true →
  get report_data "attachType" ≠ PStr (lit "0") →
  ∃ w',
    _process_report e report_data w = (inr None, w')
    ∧ http_log w' = http_log w
    ∧ files w' = files w
    ∧ rows_of info_code (db w') ≠ []
    ∧ ∀ row, row ∈ rows_of info_code (db w') →
        row !! "download_status"%string = Some (PStr (lit "no_pdf"))
        ∧ row !! "error_message"%string = Some (PStr no_pdf_message).
Proof.
  intros info_code Htruthy Hattach. unfold _process_report. fold info_code.
  rewrite Htruthy. cbn [negb]. rewrite bool_decide_eq_true_2 by done.
  eexists. split; [done|].
  destruct (update_eastmoney_report_frame e
              (<["error_message"%string := PStr no_pdf_message]>
                 (<["download_status"%string := PStr (lit "no_pdf")]>
                    (prepare_db_item info_code report_data))) w) as [Hlog Hfiles].
  split; [done|]. split; [done|].
  pose proof (no_pdf_item_infocode info_code report_data) as Hid.
  rewrite update_eastmoney_report_truthy by (by rewrite Hid). cbn [db].
  set (db_item := <["error_message"%string := PStr no_pdf_message]> _) in *.
  split.
  - pose proof (store_content_rows_nonempty (clock e (ticks w)) db_item (db w)) as Hne.
    rewrite Hid in Hne. by apply Hne.
  - intros row Hrow.
    assert (Hwritten : ∀ k v, k ∈ optional_columns → db_item !! k = Some v →
              row !! k = Some v).
    { intros k v Hk Hv.
      eapply store_content_written; [|exact Hk|exact Hv|rewrite Hid; exact Hrow].
      by rewrite Hid. }
    split; apply Hwritten.
    + unfold optional_columns. right. left.
    + unfold db_item. by rewrite lookup_insert_ne, lookup_insert_eq.
    + unfold optional_columns. right. right. left.
    + unfold db_item. by rewrite lookup_insert_eq.
Qed.


(** X17.  Reports without an identifier are passed over: a page is
    processed as the page without them. *)
Theorem process_reports_skips (e : env) (reports : list pydict) (w : world) :
  process_reports e reports w
  = process_reports e (List.filter has_infocode reports) w.
Proof.
  revert w. induction reports as [|report_data reports IH]; intros w; [done|].
  cbn [List.filter]. destruct (has_infocode report_data) eqn:Hid.
  - cbn [process_reports].
    destruct (_process_report e report_data w) as [[exc|r] w1]; [done|apply IH].
  - cbn [process_reports]. unfold _process_report at 1.
    unfold has_infocode in Hid. rewrite Hid. cbn [negb]. apply IH.
Qed.


(** X19.  Reports with different identifiers have different attachment
    URLs. *)
Theorem get_pdf_url_injective (a b : str) :
  get_pdf_url (PStr a) = get_pdf_url (PStr b) → a = b.
Proof.
  unfold get_pdf_url. cbn [py_str]. intros Heq.
  apply app_inv_head, app_inv_head in Heq. by apply app_inv_tail in Heq.
Qed.












End FetcherMore.

(** ** Runs of the crawler *)

Section FetcherMoreRuns.
Import EastmoneySqliteStore EastmoneyClient EastmoneyCrawler Store Reprocess Examples.




Lemma process_report_no_attachment_witness :
  let info_code := get_or report_R2 "infoCode" (PStr []) in
  truthy info_code = true
  ∧ get report_R2 "attachType" ≠ PStr (lit "0")
  ∧ ∃ w',
      _process_report not_found_env report_R2 empty_world = (inr None, w')
      ∧ http_log w' = []
      ∧ rows_of info_code (db w') ≠ [].
Proof.
  cbv zeta. split; [reflexivity|]. split; [discriminate|].
  destruct (process_report_no_attachment not_found_env report_R2 empty_world)
    as (w' & Hrun & Hlog & _ & Hrows & _); [reflexivity|discriminate|].
  exists w'. by split.
Defined.


Lemma get_pdf_url_injective_witness :
  get_pdf_url (PStr (lit "R1")) = lit "https://pdf.dfcfw.com/pdf/H3_R1_1.pdf"
  ∧ (get_pdf_url (PStr (lit "R1")) = get_pdf_url (PStr (lit "R1")) →
     lit "R1" = lit "R1").
Proof.
  split; [reflexivity|].
  intros Heq. exact (get_pdf_url_injective (lit "R1") (lit "R1") Heq).
Defined.

End FetcherMoreRuns.

(** ** Wrapping and unwrapping a response *)

Section EnvelopeMore.
Import EastmoneyClient Envelope.
Context {J : Type} (json_loads : str → option J).




End EnvelopeMore.

Section EnvelopeMoreRuns.
Import EastmoneyClient Envelope.


End EnvelopeMoreRuns.

(** ** The command-line selection *)

Section CommandLine.
Import EastmoneyFeishuBot SelectionGrammar TimedFeishuListener.
Context `{UnicodeData}.

Lemma identifiers_from (l : list str) : ∀ m k : nat,
  (m + k = length l)%nat →
  identifiers l (Z.of_nat <$> seq (S k) m) = drop k l.
Proof.
  unfold identifiers.
  induction m as [|m IH]; intros k Hk; [by rewrite drop_ge by lia|].
  destruct (lookup_lt_is_Some_2 l k) as [x Hx]; [lia|].
  assert (Hk' : Z.to_nat (Z.of_nat (S k) - 1) = k) by lia.
  rewrite (drop_S _ _ _ Hx). cbn [seq]. rewrite fmap_cons. cbn [omap list_omap].
  rewrite Hk', Hx. f_equal. apply IH. lia.
Qed.

Lemma seq_in_range (n : nat) :
  Forall (λ v, in_range n v = true) (Z.of_nat <$> seq 1 n).
Proof.
  apply Forall_fmap, Forall_forall. intros i Hi%list_elem_of_In%in_seq.
  unfold in_range. cbn. lia.
Qed.

(** X23.  The command-line tool takes "all" and both Chinese keep-all
    tokens, the short one included: once the prompt is confirmed it passes
    every recent report to the resolver, in order; without confirmation it
    returns without calling the resolver. *)
Theorem process_selection_keep_all (text : str) (reports : list str) :
  reports ≠ [] →
  lower (strip text) ∈ [lit "all"; keep_all_short_cn; keep_all_cn] →
  ProcessSelection.process_selection text reports true = inr (Some reports)
  ∧ ProcessSelection.process_selection text reports false = inr None.
Proof.
  intros Hreports Hall.
  unfold ProcessSelection.process_selection, ProcessSelection.selected_indices.
  cbv zeta. rewrite bool_decide_eq_true_2 by done.
  destruct reports as [|r reports]; [done|].
  pose proof (index_all_in_range (r :: reports) _ (seq_in_range (length (r :: reports))))
    as Hidx.
  rewrite (identifiers_from (r :: reports) (length (r :: reports)) 0) in Hidx by lia.
  rewrite drop_0 in Hidx.
  destruct (Z.of_nat <$> seq 1 (length (r :: reports))) as [|i idxs] eqn:Hseq; [done|].
  by rewrite Hidx.
Qed.

Lemma cli_parse_parts_rejected (n : nat) (parts : list str) (tok : str) :
  ∀ acc : list Z,
  tok ∈ parts → isdigit (strip tok) = true → int (strip tok) = None →
  ProcessSelection.parse_parts n acc parts = None.
Proof.
  induction parts as [|part parts IH]; intros acc Hin Hd Hi.
  - by apply elem_of_nil in Hin.
  - cbn [ProcessSelection.parse_parts]. cbv zeta.
    apply elem_of_cons in Hin as [<-|Hin].
    + by rewrite Hd, Hi.
    + destruct (isdigit (strip part)); [|by apply IH].
      destruct (int (strip part)) as [idx|]; [|done]. cbn [mbind option_bind].
      destruct (_ && _); by apply IH.
Qed.

(** X24.  One comma-separated token that is made of digits but is no
    numeral for [int] makes the command-line tool raise, before it asks
    for confirmation; the bot's parser returns the empty selection on the
    same reply. *)
Theorem process_selection_raises (text : str) (reports : list str) (tok : str)
    (confirmed : bool) :
  reports ≠ [] →
  lower (strip text) ∉ [lit "all"; keep_all_short_cn; keep_all_cn;
                         lit "delete"; delete_all_cn; lit "delete all"] →
  tok ∈ split_commas (lower (strip text)) →
  isdigit (strip tok) = true → int (strip tok) = None →
  ProcessSelection.process_selection text reports confirmed = inl OtherError.
Proof.
  intros Hreports Hcli Hin Hd Hi.
  unfold ProcessSelection.process_selection, ProcessSelection.selected_indices.
  cbv zeta. destruct reports as [|r reports]; [done|].
  rewrite bool_decide_eq_false_2.
  2:{ intros Hkeep. apply Hcli.
      repeat (apply elem_of_cons in Hkeep as [->|Hkeep]; [repeat (first [left|right])|]).
      by apply elem_of_nil in Hkeep. }
  rewrite bool_decide_eq_false_2.
  2:{ intros Hdel. apply Hcli.
      repeat (apply elem_of_cons in Hdel as [->|Hdel]; [repeat (first [left|right])|]).
      by apply elem_of_nil in Hdel. }
  unfold fullwidth_comma, comma.
  by rewrite split_replace_comma, (cli_parse_parts_rejected _ _ tok [] Hin Hd Hi).
Qed.

End CommandLine.

Section CommandLineRuns.
Import EastmoneyFeishuBot SelectionGrammar TimedFeishuListener Examples.

Lemma process_selection_keep_all_witness :
  offered3 ≠ []
  ∧ @lower ascii_tables (strip keep_all_short_cn)
    ∈ [lit "all"; keep_all_short_cn; keep_all_cn]
  ∧ @ProcessSelection.process_selection ascii_tables keep_all_short_cn offered3 true
    = inr (Some offered3).
Proof.
  assert (Hall : @lower ascii_tables (strip keep_all_short_cn)
                 ∈ [lit "all"; keep_all_short_cn; keep_all_cn]).
  { apply list_elem_of_In. vm_compute. auto. }
  split; [discriminate|]. split; [exact Hall|].
  apply (@process_selection_keep_all ascii_tables keep_all_short_cn offered3);
    [discriminate|exact Hall].
Defined.

Lemma process_selection_raises_witness :
  let text : str := [49; 44; 178] in   (* "1," and a superscript two *)
  offered3 ≠ []
  ∧ [178] ∈ split_commas (@lower superscript_tables (strip text))
  ∧ @isdigit superscript_tables (strip [178]) = true
  ∧ @int superscript_tables (strip [178]) = None
  ∧ @ProcessSelection.process_selection superscript_tables text offered3 true
    = inl OtherError.
Proof.
  assert (Hin : [178] ∈ split_commas (@lower superscript_tables (strip [49; 44; 178]))).
  { apply list_elem_of_In. vm_compute. auto. }
  cbv zeta. split; [discriminate|]. split; [exact Hin|].
  split; [reflexivity|]. split; [reflexivity|].
  apply (@process_selection_raises superscript_tables [49; 44; 178] offered3 [178] true);
    [discriminate| |exact Hin|reflexivity|reflexivity].
  apply (bool_decide_unpack _). vm_compute. exact I.
Defined.

End CommandLineRuns.
